(** * Journal classification (JCR + SJR quartiles) of [streamlit_app.py]

    A shallow embedding of the classification rules
    ([map_quartil_to_level], [classify_journal]) and of the loader
    ([load_data]) of the Streamlit application, with the properties of
    the classification engine and of the derived-column backfill.

    Python values are dynamically typed, so the embedding has one type
    [value] of cell values and an error monad [outcome] in which a method
    call on a value of the wrong type raises [AttributeError]. *)

From Stdlib Require Import List NArith ZArith Bool Lia String Ascii.
From Stdlib Require Import Numbers.DecimalString.
From Stdlib Require Import Sorting.Permutation Sorting.Sorted.
Import ListNotations.

Local Open Scope N_scope.

(** ** Python strings

    A Python [str] is a sequence of Unicode code points. *)

Definition pystr := list N.

(** An ASCII literal of the source, as code points. *)
Definition lit (s : string) : pystr :=
  map N_of_ascii (list_ascii_of_string s).

Fixpoint pystr_eqb (a b : pystr) : bool :=
  match a, b with
  | [], [] => true
  | x :: a', y :: b' => (x =? y) && pystr_eqb a' b'
  | _, _ => false
  end.

(** [str.isspace] on one code point ([Py_UNICODE_ISSPACE]): the
    characters [str.strip()] removes when called without argument. *)
Definition whitespace : list N :=
  [9; 10; 11; 12; 13; 28; 29; 30; 31; 32; 133; 160; 5760;
   8192; 8193; 8194; 8195; 8196; 8197; 8198; 8199; 8200; 8201; 8202;
   8232; 8233; 8239; 8287; 12288].

Definition is_space (c : N) : bool := existsb (N.eqb c) whitespace.

(** [str.lstrip()], [str.rstrip()], [str.strip()]. *)
Fixpoint lstrip (s : pystr) : pystr :=
  match s with
  | [] => []
  | c :: r => if is_space c then lstrip r else s
  end.

Definition rstrip (s : pystr) : pystr := rev (lstrip (rev s)).

Definition strip (s : pystr) : pystr := rstrip (lstrip s).

(** The full upper-case mapping of the non-ASCII code points that have
    one (Unicode 14.0, the [unicodedata] of CPython 3.11): a code point
    maps to one, two or three code points; a code point that is not
    listed maps to itself. *)
Definition upper_table : list (N * list N) :=
  [
   (181, [924]); (223, [83; 83]); (224, [192]); (225, [193]); (226, [194]);
   (227, [195]); (228, [196]); (229, [197]); (230, [198]); (231, [199]);
   (232, [200]); (233, [201]); (234, [202]); (235, [203]); (236, [204]);
   (237, [205]); (238, [206]); (239, [207]); (240, [208]); (241, [209]);
   (242, [210]); (243, [211]); (244, [212]); (245, [213]); (246, [214]);
   (248, [216]); (249, [217]); (250, [218]); (251, [219]); (252, [220]);
   (253, [221]); (254, [222]); (255, [376]); (257, [256]); (259, [258]);
   (261, [260]); (263, [262]); (265, [264]); (267, [266]); (269, [268]);
   (271, [270]); (273, [272]); (275, [274]); (277, [276]); (279, [278]);
   (281, [280]); (283, [282]); (285, [284]); (287, [286]); (289, [288]);
   (291, [290]); (293, [292]); (295, [294]); (297, [296]); (299, [298]);
   (301, [300]); (303, [302]); (305, [73]); (307, [306]); (309, [308]);
   (311, [310]); (314, [313]); (316, [315]); (318, [317]); (320, [319]);
   (322, [321]); (324, [323]); (326, [325]); (328, [327]); (329, [700; 78]);
   (331, [330]); (333, [332]); (335, [334]); (337, [336]); (339, [338]);
   (341, [340]); (343, [342]); (345, [344]); (347, [346]); (349, [348]);
   (351, [350]); (353, [352]); (355, [354]); (357, [356]); (359, [358]);
   (361, [360]); (363, [362]); (365, [364]); (367, [366]); (369, [368]);
   (371, [370]); (373, [372]); (375, [374]); (378, [377]); (380, [379]);
   (382, [381]); (383, [83]); (384, [579]); (387, [386]); (389, [388]);
   (392, [391]); (396, [395]); (402, [401]); (405, [502]); (409, [408]);
   (410, [573]); (414, [544]); (417, [416]); (419, [418]); (421, [420]);
   (424, [423]); (429, [428]); (432, [431]); (436, [435]); (438, [437]);
   (441, [440]); (445, [444]); (447, [503]); (453, [452]); (454, [452]);
   (456, [455]); (457, [455]); (459, [458]); (460, [458]); (462, [461]);
   (464, [463]); (466, [465]); (468, [467]); (470, [469]); (472, [471]);
   (474, [473]); (476, [475]); (477, [398]); (479, [478]); (481, [480]);
   (483, [482]); (485, [484]); (487, [486]); (489, [488]); (491, [490]);
   (493, [492]); (495, [494]); (496, [74; 780]); (498, [497]); (499, [497]);
   (501, [500]); (505, [504]); (507, [506]); (509, [508]); (511, [510]);
   (513, [512]); (515, [514]); (517, [516]); (519, [518]); (521, [520]);
   (523, [522]); (525, [524]); (527, [526]); (529, [528]); (531, [530]);
   (533, [532]); (535, [534]); (537, [536]); (539, [538]); (541, [540]);
   (543, [542]); (547, [546]); (549, [548]); (551, [550]); (553, [552]);
   (555, [554]); (557, [556]); (559, [558]); (561, [560]); (563, [562]);
   (572, [571]); (575, [11390]); (576, [11391]); (578, [577]); (583, [582]);
   (585, [584]); (587, [586]); (589, [588]); (591, [590]); (592, [11375]);
   (593, [11373]); (594, [11376]); (595, [385]); (596, [390]); (598, [393]);
   (599, [394]); (601, [399]); (603, [400]); (604, [42923]); (608, [403]);
   (609, [42924]); (611, [404]); (613, [42893]); (614, [42922]); (616, [407]);
   (617, [406]); (618, [42926]); (619, [11362]); (620, [42925]); (623, [412]);
   (625, [11374]); (626, [413]); (629, [415]); (637, [11364]); (640, [422]);
   (642, [42949]); (643, [425]); (647, [42929]); (648, [430]); (649, [580]);
   (650, [433]); (651, [434]); (652, [581]); (658, [439]); (669, [42930]);
   (670, [42928]); (837, [921]); (881, [880]); (883, [882]); (887, [886]);
   (891, [1021]); (892, [1022]); (893, [1023]); (912, [921; 776; 769]);
   (940, [902]); (941, [904]); (942, [905]); (943, [906]);
   (944, [933; 776; 769]); (945, [913]); (946, [914]); (947, [915]);
   (948, [916]); (949, [917]); (950, [918]); (951, [919]); (952, [920]);
   (953, [921]); (954, [922]); (955, [923]); (956, [924]); (957, [925]);
   (958, [926]); (959, [927]); (960, [928]); (961, [929]); (962, [931]);
   (963, [931]); (964, [932]); (965, [933]); (966, [934]); (967, [935]);
   (968, [936]); (969, [937]); (970, [938]); (971, [939]); (972, [908]);
   (973, [910]); (974, [911]); (976, [914]); (977, [920]); (981, [934]);
   (982, [928]); (983, [975]); (985, [984]); (987, [986]); (989, [988]);
   (991, [990]); (993, [992]); (995, [994]); (997, [996]); (999, [998]);
   (1001, [1000]); (1003, [1002]); (1005, [1004]); (1007, [1006]);
   (1008, [922]); (1009, [929]); (1010, [1017]); (1011, [895]); (1013, [917]);
   (1016, [1015]); (1019, [1018]); (1072, [1040]); (1073, [1041]);
   (1074, [1042]); (1075, [1043]); (1076, [1044]); (1077, [1045]);
   (1078, [1046]); (1079, [1047]); (1080, [1048]); (1081, [1049]);
   (1082, [1050]); (1083, [1051]); (1084, [1052]); (1085, [1053]);
   (1086, [1054]); (1087, [1055]); (1088, [1056]); (1089, [1057]);
   (1090, [1058]); (1091, [1059]); (1092, [1060]); (1093, [1061]);
   (1094, [1062]); (1095, [1063]); (1096, [1064]); (1097, [1065]);
   (1098, [1066]); (1099, [1067]); (1100, [1068]); (1101, [1069]);
   (1102, [1070]); (1103, [1071]); (1104, [1024]); (1105, [1025]);
   (1106, [1026]); (1107, [1027]); (1108, [1028]); (1109, [1029]);
   (1110, [1030]); (1111, [1031]); (1112, [1032]); (1113, [1033]);
   (1114, [1034]); (1115, [1035]); (1116, [1036]); (1117, [1037]);
   (1118, [1038]); (1119, [1039]); (1121, [1120]); (1123, [1122]);
   (1125, [1124]); (1127, [1126]); (1129, [1128]); (1131, [1130]);
   (1133, [1132]); (1135, [1134]); (1137, [1136]); (1139, [1138]);
   (1141, [1140]); (1143, [1142]); (1145, [1144]); (1147, [1146]);
   (1149, [1148]); (1151, [1150]); (1153, [1152]); (1163, [1162]);
   (1165, [1164]); (1167, [1166]); (1169, [1168]); (1171, [1170]);
   (1173, [1172]); (1175, [1174]); (1177, [1176]); (1179, [1178]);
   (1181, [1180]); (1183, [1182]); (1185, [1184]); (1187, [1186]);
   (1189, [1188]); (1191, [1190]); (1193, [1192]); (1195, [1194]);
   (1197, [1196]); (1199, [1198]); (1201, [1200]); (1203, [1202]);
   (1205, [1204]); (1207, [1206]); (1209, [1208]); (1211, [1210]);
   (1213, [1212]); (1215, [1214]); (1218, [1217]); (1220, [1219]);
   (1222, [1221]); (1224, [1223]); (1226, [1225]); (1228, [1227]);
   (1230, [1229]); (1231, [1216]); (1233, [1232]); (1235, [1234]);
   (1237, [1236]); (1239, [1238]); (1241, [1240]); (1243, [1242]);
   (1245, [1244]); (1247, [1246]); (1249, [1248]); (1251, [1250]);
   (1253, [1252]); (1255, [1254]); (1257, [1256]); (1259, [1258]);
   (1261, [1260]); (1263, [1262]); (1265, [1264]); (1267, [1266]);
   (1269, [1268]); (1271, [1270]); (1273, [1272]); (1275, [1274]);
   (1277, [1276]); (1279, [1278]); (1281, [1280]); (1283, [1282]);
   (1285, [1284]); (1287, [1286]); (1289, [1288]); (1291, [1290]);
   (1293, [1292]); (1295, [1294]); (1297, [1296]); (1299, [1298]);
   (1301, [1300]); (1303, [1302]); (1305, [1304]); (1307, [1306]);
   (1309, [1308]); (1311, [1310]); (1313, [1312]); (1315, [1314]);
   (1317, [1316]); (1319, [1318]); (1321, [1320]); (1323, [1322]);
   (1325, [1324]); (1327, [1326]); (1377, [1329]); (1378, [1330]);
   (1379, [1331]); (1380, [1332]); (1381, [1333]); (1382, [1334]);
   (1383, [1335]); (1384, [1336]); (1385, [1337]); (1386, [1338]);
   (1387, [1339]); (1388, [1340]); (1389, [1341]); (1390, [1342]);
   (1391, [1343]); (1392, [1344]); (1393, [1345]); (1394, [1346]);
   (1395, [1347]); (1396, [1348]); (1397, [1349]); (1398, [1350]);
   (1399, [1351]); (1400, [1352]); (1401, [1353]); (1402, [1354]);
   (1403, [1355]); (1404, [1356]); (1405, [1357]); (1406, [1358]);
   (1407, [1359]); (1408, [1360]); (1409, [1361]); (1410, [1362]);
   (1411, [1363]); (1412, [1364]); (1413, [1365]); (1414, [1366]);
   (1415, [1333; 1362]); (4304, [7312]); (4305, [7313]); (4306, [7314]);
   (4307, [7315]); (4308, [7316]); (4309, [7317]); (4310, [7318]);
   (4311, [7319]); (4312, [7320]); (4313, [7321]); (4314, [7322]);
   (4315, [7323]); (4316, [7324]); (4317, [7325]); (4318, [7326]);
   (4319, [7327]); (4320, [7328]); (4321, [7329]); (4322, [7330]);
   (4323, [7331]); (4324, [7332]); (4325, [7333]); (4326, [7334]);
   (4327, [7335]); (4328, [7336]); (4329, [7337]); (4330, [7338]);
   (4331, [7339]); (4332, [7340]); (4333, [7341]); (4334, [7342]);
   (4335, [7343]); (4336, [7344]); (4337, [7345]); (4338, [7346]);
   (4339, [7347]); (4340, [7348]); (4341, [7349]); (4342, [7350]);
   (4343, [7351]); (4344, [7352]); (4345, [7353]); (4346, [7354]);
   (4349, [7357]); (4350, [7358]); (4351, [7359]); (5112, [5104]);
   (5113, [5105]); (5114, [5106]); (5115, [5107]); (5116, [5108]);
   (5117, [5109]); (7296, [1042]); (7297, [1044]); (7298, [1054]);
   (7299, [1057]); (7300, [1058]); (7301, [1058]); (7302, [1066]);
   (7303, [1122]); (7304, [42570]); (7545, [42877]); (7549, [11363]);
   (7566, [42950]); (7681, [7680]); (7683, [7682]); (7685, [7684]);
   (7687, [7686]); (7689, [7688]); (7691, [7690]); (7693, [7692]);
   (7695, [7694]); (7697, [7696]); (7699, [7698]); (7701, [7700]);
   (7703, [7702]); (7705, [7704]); (7707, [7706]); (7709, [7708]);
   (7711, [7710]); (7713, [7712]); (7715, [7714]); (7717, [7716]);
   (7719, [7718]); (7721, [7720]); (7723, [7722]); (7725, [7724]);
   (7727, [7726]); (7729, [7728]); (7731, [7730]); (7733, [7732]);
   (7735, [7734]); (7737, [7736]); (7739, [7738]); (7741, [7740]);
   (7743, [7742]); (7745, [7744]); (7747, [7746]); (7749, [7748]);
   (7751, [7750]); (7753, [7752]); (7755, [7754]); (7757, [7756]);
   (7759, [7758]); (7761, [7760]); (7763, [7762]); (7765, [7764]);
   (7767, [7766]); (7769, [7768]); (7771, [7770]); (7773, [7772]);
   (7775, [7774]); (7777, [7776]); (7779, [7778]); (7781, [7780]);
   (7783, [7782]); (7785, [7784]); (7787, [7786]); (7789, [7788]);
   (7791, [7790]); (7793, [7792]); (7795, [7794]); (7797, [7796]);
   (7799, [7798]); (7801, [7800]); (7803, [7802]); (7805, [7804]);
   (7807, [7806]); (7809, [7808]); (7811, [7810]); (7813, [7812]);
   (7815, [7814]); (7817, [7816]); (7819, [7818]); (7821, [7820]);
   (7823, [7822]); (7825, [7824]); (7827, [7826]); (7829, [7828]);
   (7830, [72; 817]); (7831, [84; 776]); (7832, [87; 778]); (7833, [89; 778]);
   (7834, [65; 702]); (7835, [7776]); (7841, [7840]); (7843, [7842]);
   (7845, [7844]); (7847, [7846]); (7849, [7848]); (7851, [7850]);
   (7853, [7852]); (7855, [7854]); (7857, [7856]); (7859, [7858]);
   (7861, [7860]); (7863, [7862]); (7865, [7864]); (7867, [7866]);
   (7869, [7868]); (7871, [7870]); (7873, [7872]); (7875, [7874]);
   (7877, [7876]); (7879, [7878]); (7881, [7880]); (7883, [7882]);
   (7885, [7884]); (7887, [7886]); (7889, [7888]); (7891, [7890]);
   (7893, [7892]); (7895, [7894]); (7897, [7896]); (7899, [7898]);
   (7901, [7900]); (7903, [7902]); (7905, [7904]); (7907, [7906]);
   (7909, [7908]); (7911, [7910]); (7913, [7912]); (7915, [7914]);
   (7917, [7916]); (7919, [7918]); (7921, [7920]); (7923, [7922]);
   (7925, [7924]); (7927, [7926]); (7929, [7928]); (7931, [7930]);
   (7933, [7932]); (7935, [7934]); (7936, [7944]); (7937, [7945]);
   (7938, [7946]); (7939, [7947]); (7940, [7948]); (7941, [7949]);
   (7942, [7950]); (7943, [7951]); (7952, [7960]); (7953, [7961]);
   (7954, [7962]); (7955, [7963]); (7956, [7964]); (7957, [7965]);
   (7968, [7976]); (7969, [7977]); (7970, [7978]); (7971, [7979]);
   (7972, [7980]); (7973, [7981]); (7974, [7982]); (7975, [7983]);
   (7984, [7992]); (7985, [7993]); (7986, [7994]); (7987, [7995]);
   (7988, [7996]); (7989, [7997]); (7990, [7998]); (7991, [7999]);
   (8000, [8008]); (8001, [8009]); (8002, [8010]); (8003, [8011]);
   (8004, [8012]); (8005, [8013]); (8016, [933; 787]); (8017, [8025]);
   (8018, [933; 787; 768]); (8019, [8027]); (8020, [933; 787; 769]);
   (8021, [8029]); (8022, [933; 787; 834]); (8023, [8031]); (8032, [8040]);
   (8033, [8041]); (8034, [8042]); (8035, [8043]); (8036, [8044]);
   (8037, [8045]); (8038, [8046]); (8039, [8047]); (8048, [8122]);
   (8049, [8123]); (8050, [8136]); (8051, [8137]); (8052, [8138]);
   (8053, [8139]); (8054, [8154]); (8055, [8155]); (8056, [8184]);
   (8057, [8185]); (8058, [8170]); (8059, [8171]); (8060, [8186]);
   (8061, [8187]); (8064, [7944; 921]); (8065, [7945; 921]);
   (8066, [7946; 921]); (8067, [7947; 921]); (8068, [7948; 921]);
   (8069, [7949; 921]); (8070, [7950; 921]); (8071, [7951; 921]);
   (8072, [7944; 921]); (8073, [7945; 921]); (8074, [7946; 921]);
   (8075, [7947; 921]); (8076, [7948; 921]); (8077, [7949; 921]);
   (8078, [7950; 921]); (8079, [7951; 921]); (8080, [7976; 921]);
   (8081, [7977; 921]); (8082, [7978; 921]); (8083, [7979; 921]);
   (8084, [7980; 921]); (8085, [7981; 921]); (8086, [7982; 921]);
   (8087, [7983; 921]); (8088, [7976; 921]); (8089, [7977; 921]);
   (8090, [7978; 921]); (8091, [7979; 921]); (8092, [7980; 921]);
   (8093, [7981; 921]); (8094, [7982; 921]); (8095, [7983; 921]);
   (8096, [8040; 921]); (8097, [8041; 921]); (8098, [8042; 921]);
   (8099, [8043; 921]); (8100, [8044; 921]); (8101, [8045; 921]);
   (8102, [8046; 921]); (8103, [8047; 921]); (8104, [8040; 921]);
   (8105, [8041; 921]); (8106, [8042; 921]); (8107, [8043; 921]);
   (8108, [8044; 921]); (8109, [8045; 921]); (8110, [8046; 921]);
   (8111, [8047; 921]); (8112, [8120]); (8113, [8121]); (8114, [8122; 921]);
   (8115, [913; 921]); (8116, [902; 921]); (8118, [913; 834]);
   (8119, [913; 834; 921]); (8124, [913; 921]); (8126, [921]);
   (8130, [8138; 921]); (8131, [919; 921]); (8132, [905; 921]);
   (8134, [919; 834]); (8135, [919; 834; 921]); (8140, [919; 921]);
   (8144, [8152]); (8145, [8153]); (8146, [921; 776; 768]);
   (8147, [921; 776; 769]); (8150, [921; 834]); (8151, [921; 776; 834]);
   (8160, [8168]); (8161, [8169]); (8162, [933; 776; 768]);
   (8163, [933; 776; 769]); (8164, [929; 787]); (8165, [8172]);
   (8166, [933; 834]); (8167, [933; 776; 834]); (8178, [8186; 921]);
   (8179, [937; 921]); (8180, [911; 921]); (8182, [937; 834]);
   (8183, [937; 834; 921]); (8188, [937; 921]); (8526, [8498]); (8560, [8544]);
   (8561, [8545]); (8562, [8546]); (8563, [8547]); (8564, [8548]);
   (8565, [8549]); (8566, [8550]); (8567, [8551]); (8568, [8552]);
   (8569, [8553]); (8570, [8554]); (8571, [8555]); (8572, [8556]);
   (8573, [8557]); (8574, [8558]); (8575, [8559]); (8580, [8579]);
   (9424, [9398]); (9425, [9399]); (9426, [9400]); (9427, [9401]);
   (9428, [9402]); (9429, [9403]); (9430, [9404]); (9431, [9405]);
   (9432, [9406]); (9433, [9407]); (9434, [9408]); (9435, [9409]);
   (9436, [9410]); (9437, [9411]); (9438, [9412]); (9439, [9413]);
   (9440, [9414]); (9441, [9415]); (9442, [9416]); (9443, [9417]);
   (9444, [9418]); (9445, [9419]); (9446, [9420]); (9447, [9421]);
   (9448, [9422]); (9449, [9423]); (11312, [11264]); (11313, [11265]);
   (11314, [11266]); (11315, [11267]); (11316, [11268]); (11317, [11269]);
   (11318, [11270]); (11319, [11271]); (11320, [11272]); (11321, [11273]);
   (11322, [11274]); (11323, [11275]); (11324, [11276]); (11325, [11277]);
   (11326, [11278]); (11327, [11279]); (11328, [11280]); (11329, [11281]);
   (11330, [11282]); (11331, [11283]); (11332, [11284]); (11333, [11285]);
   (11334, [11286]); (11335, [11287]); (11336, [11288]); (11337, [11289]);
   (11338, [11290]); (11339, [11291]); (11340, [11292]); (11341, [11293]);
   (11342, [11294]); (11343, [11295]); (11344, [11296]); (11345, [11297]);
   (11346, [11298]); (11347, [11299]); (11348, [11300]); (11349, [11301]);
   (11350, [11302]); (11351, [11303]); (11352, [11304]); (11353, [11305]);
   (11354, [11306]); (11355, [11307]); (11356, [11308]); (11357, [11309]);
   (11358, [11310]); (11359, [11311]); (11361, [11360]); (11365, [570]);
   (11366, [574]); (11368, [11367]); (11370, [11369]); (11372, [11371]);
   (11379, [11378]); (11382, [11381]); (11393, [11392]); (11395, [11394]);
   (11397, [11396]); (11399, [11398]); (11401, [11400]); (11403, [11402]);
   (11405, [11404]); (11407, [11406]); (11409, [11408]); (11411, [11410]);
   (11413, [11412]); (11415, [11414]); (11417, [11416]); (11419, [11418]);
   (11421, [11420]); (11423, [11422]); (11425, [11424]); (11427, [11426]);
   (11429, [11428]); (11431, [11430]); (11433, [11432]); (11435, [11434]);
   (11437, [11436]); (11439, [11438]); (11441, [11440]); (11443, [11442]);
   (11445, [11444]); (11447, [11446]); (11449, [11448]); (11451, [11450]);
   (11453, [11452]); (11455, [11454]); (11457, [11456]); (11459, [11458]);
   (11461, [11460]); (11463, [11462]); (11465, [11464]); (11467, [11466]);
   (11469, [11468]); (11471, [11470]); (11473, [11472]); (11475, [11474]);
   (11477, [11476]); (11479, [11478]); (11481, [11480]); (11483, [11482]);
   (11485, [11484]); (11487, [11486]); (11489, [11488]); (11491, [11490]);
   (11500, [11499]); (11502, [11501]); (11507, [11506]); (11520, [4256]);
   (11521, [4257]); (11522, [4258]); (11523, [4259]); (11524, [4260]);
   (11525, [4261]); (11526, [4262]); (11527, [4263]); (11528, [4264]);
   (11529, [4265]); (11530, [4266]); (11531, [4267]); (11532, [4268]);
   (11533, [4269]); (11534, [4270]); (11535, [4271]); (11536, [4272]);
   (11537, [4273]); (11538, [4274]); (11539, [4275]); (11540, [4276]);
   (11541, [4277]); (11542, [4278]); (11543, [4279]); (11544, [4280]);
   (11545, [4281]); (11546, [4282]); (11547, [4283]); (11548, [4284]);
   (11549, [4285]); (11550, [4286]); (11551, [4287]); (11552, [4288]);
   (11553, [4289]); (11554, [4290]); (11555, [4291]); (11556, [4292]);
   (11557, [4293]); (11559, [4295]); (11565, [4301]); (42561, [42560]);
   (42563, [42562]); (42565, [42564]); (42567, [42566]); (42569, [42568]);
   (42571, [42570]); (42573, [42572]); (42575, [42574]); (42577, [42576]);
   (42579, [42578]); (42581, [42580]); (42583, [42582]); (42585, [42584]);
   (42587, [42586]); (42589, [42588]); (42591, [42590]); (42593, [42592]);
   (42595, [42594]); (42597, [42596]); (42599, [42598]); (42601, [42600]);
   (42603, [42602]); (42605, [42604]); (42625, [42624]); (42627, [42626]);
   (42629, [42628]); (42631, [42630]); (42633, [42632]); (42635, [42634]);
   (42637, [42636]); (42639, [42638]); (42641, [42640]); (42643, [42642]);
   (42645, [42644]); (42647, [42646]); (42649, [42648]); (42651, [42650]);
   (42787, [42786]); (42789, [42788]); (42791, [42790]); (42793, [42792]);
   (42795, [42794]); (42797, [42796]); (42799, [42798]); (42803, [42802]);
   (42805, [42804]); (42807, [42806]); (42809, [42808]); (42811, [42810]);
   (42813, [42812]); (42815, [42814]); (42817, [42816]); (42819, [42818]);
   (42821, [42820]); (42823, [42822]); (42825, [42824]); (42827, [42826]);
   (42829, [42828]); (42831, [42830]); (42833, [42832]); (42835, [42834]);
   (42837, [42836]); (42839, [42838]); (42841, [42840]); (42843, [42842]);
   (42845, [42844]); (42847, [42846]); (42849, [42848]); (42851, [42850]);
   (42853, [42852]); (42855, [42854]); (42857, [42856]); (42859, [42858]);
   (42861, [42860]); (42863, [42862]); (42874, [42873]); (42876, [42875]);
   (42879, [42878]); (42881, [42880]); (42883, [42882]); (42885, [42884]);
   (42887, [42886]); (42892, [42891]); (42897, [42896]); (42899, [42898]);
   (42900, [42948]); (42903, [42902]); (42905, [42904]); (42907, [42906]);
   (42909, [42908]); (42911, [42910]); (42913, [42912]); (42915, [42914]);
   (42917, [42916]); (42919, [42918]); (42921, [42920]); (42933, [42932]);
   (42935, [42934]); (42937, [42936]); (42939, [42938]); (42941, [42940]);
   (42943, [42942]); (42945, [42944]); (42947, [42946]); (42952, [42951]);
   (42954, [42953]); (42961, [42960]); (42967, [42966]); (42969, [42968]);
   (42998, [42997]); (43859, [42931]); (43888, [5024]); (43889, [5025]);
   (43890, [5026]); (43891, [5027]); (43892, [5028]); (43893, [5029]);
   (43894, [5030]); (43895, [5031]); (43896, [5032]); (43897, [5033]);
   (43898, [5034]); (43899, [5035]); (43900, [5036]); (43901, [5037]);
   (43902, [5038]); (43903, [5039]); (43904, [5040]); (43905, [5041]);
   (43906, [5042]); (43907, [5043]); (43908, [5044]); (43909, [5045]);
   (43910, [5046]); (43911, [5047]); (43912, [5048]); (43913, [5049]);
   (43914, [5050]); (43915, [5051]); (43916, [5052]); (43917, [5053]);
   (43918, [5054]); (43919, [5055]); (43920, [5056]); (43921, [5057]);
   (43922, [5058]); (43923, [5059]); (43924, [5060]); (43925, [5061]);
   (43926, [5062]); (43927, [5063]); (43928, [5064]); (43929, [5065]);
   (43930, [5066]); (43931, [5067]); (43932, [5068]); (43933, [5069]);
   (43934, [5070]); (43935, [5071]); (43936, [5072]); (43937, [5073]);
   (43938, [5074]); (43939, [5075]); (43940, [5076]); (43941, [5077]);
   (43942, [5078]); (43943, [5079]); (43944, [5080]); (43945, [5081]);
   (43946, [5082]); (43947, [5083]); (43948, [5084]); (43949, [5085]);
   (43950, [5086]); (43951, [5087]); (43952, [5088]); (43953, [5089]);
   (43954, [5090]); (43955, [5091]); (43956, [5092]); (43957, [5093]);
   (43958, [5094]); (43959, [5095]); (43960, [5096]); (43961, [5097]);
   (43962, [5098]); (43963, [5099]); (43964, [5100]); (43965, [5101]);
   (43966, [5102]); (43967, [5103]); (64256, [70; 70]); (64257, [70; 73]);
   (64258, [70; 76]); (64259, [70; 70; 73]); (64260, [70; 70; 76]);
   (64261, [83; 84]); (64262, [83; 84]); (64275, [1348; 1350]);
   (64276, [1348; 1333]); (64277, [1348; 1339]); (64278, [1358; 1350]);
   (64279, [1348; 1341]); (65345, [65313]); (65346, [65314]); (65347, [65315]);
   (65348, [65316]); (65349, [65317]); (65350, [65318]); (65351, [65319]);
   (65352, [65320]); (65353, [65321]); (65354, [65322]); (65355, [65323]);
   (65356, [65324]); (65357, [65325]); (65358, [65326]); (65359, [65327]);
   (65360, [65328]); (65361, [65329]); (65362, [65330]); (65363, [65331]);
   (65364, [65332]); (65365, [65333]); (65366, [65334]); (65367, [65335]);
   (65368, [65336]); (65369, [65337]); (65370, [65338]); (66600, [66560]);
   (66601, [66561]); (66602, [66562]); (66603, [66563]); (66604, [66564]);
   (66605, [66565]); (66606, [66566]); (66607, [66567]); (66608, [66568]);
   (66609, [66569]); (66610, [66570]); (66611, [66571]); (66612, [66572]);
   (66613, [66573]); (66614, [66574]); (66615, [66575]); (66616, [66576]);
   (66617, [66577]); (66618, [66578]); (66619, [66579]); (66620, [66580]);
   (66621, [66581]); (66622, [66582]); (66623, [66583]); (66624, [66584]);
   (66625, [66585]); (66626, [66586]); (66627, [66587]); (66628, [66588]);
   (66629, [66589]); (66630, [66590]); (66631, [66591]); (66632, [66592]);
   (66633, [66593]); (66634, [66594]); (66635, [66595]); (66636, [66596]);
   (66637, [66597]); (66638, [66598]); (66639, [66599]); (66776, [66736]);
   (66777, [66737]); (66778, [66738]); (66779, [66739]); (66780, [66740]);
   (66781, [66741]); (66782, [66742]); (66783, [66743]); (66784, [66744]);
   (66785, [66745]); (66786, [66746]); (66787, [66747]); (66788, [66748]);
   (66789, [66749]); (66790, [66750]); (66791, [66751]); (66792, [66752]);
   (66793, [66753]); (66794, [66754]); (66795, [66755]); (66796, [66756]);
   (66797, [66757]); (66798, [66758]); (66799, [66759]); (66800, [66760]);
   (66801, [66761]); (66802, [66762]); (66803, [66763]); (66804, [66764]);
   (66805, [66765]); (66806, [66766]); (66807, [66767]); (66808, [66768]);
   (66809, [66769]); (66810, [66770]); (66811, [66771]); (66967, [66928]);
   (66968, [66929]); (66969, [66930]); (66970, [66931]); (66971, [66932]);
   (66972, [66933]); (66973, [66934]); (66974, [66935]); (66975, [66936]);
   (66976, [66937]); (66977, [66938]); (66979, [66940]); (66980, [66941]);
   (66981, [66942]); (66982, [66943]); (66983, [66944]); (66984, [66945]);
   (66985, [66946]); (66986, [66947]); (66987, [66948]); (66988, [66949]);
   (66989, [66950]); (66990, [66951]); (66991, [66952]); (66992, [66953]);
   (66993, [66954]); (66995, [66956]); (66996, [66957]); (66997, [66958]);
   (66998, [66959]); (66999, [66960]); (67000, [66961]); (67001, [66962]);
   (67003, [66964]); (67004, [66965]); (68800, [68736]); (68801, [68737]);
   (68802, [68738]); (68803, [68739]); (68804, [68740]); (68805, [68741]);
   (68806, [68742]); (68807, [68743]); (68808, [68744]); (68809, [68745]);
   (68810, [68746]); (68811, [68747]); (68812, [68748]); (68813, [68749]);
   (68814, [68750]); (68815, [68751]); (68816, [68752]); (68817, [68753]);
   (68818, [68754]); (68819, [68755]); (68820, [68756]); (68821, [68757]);
   (68822, [68758]); (68823, [68759]); (68824, [68760]); (68825, [68761]);
   (68826, [68762]); (68827, [68763]); (68828, [68764]); (68829, [68765]);
   (68830, [68766]); (68831, [68767]); (68832, [68768]); (68833, [68769]);
   (68834, [68770]); (68835, [68771]); (68836, [68772]); (68837, [68773]);
   (68838, [68774]); (68839, [68775]); (68840, [68776]); (68841, [68777]);
   (68842, [68778]); (68843, [68779]); (68844, [68780]); (68845, [68781]);
   (68846, [68782]); (68847, [68783]); (68848, [68784]); (68849, [68785]);
   (68850, [68786]); (71872, [71840]); (71873, [71841]); (71874, [71842]);
   (71875, [71843]); (71876, [71844]); (71877, [71845]); (71878, [71846]);
   (71879, [71847]); (71880, [71848]); (71881, [71849]); (71882, [71850]);
   (71883, [71851]); (71884, [71852]); (71885, [71853]); (71886, [71854]);
   (71887, [71855]); (71888, [71856]); (71889, [71857]); (71890, [71858]);
   (71891, [71859]); (71892, [71860]); (71893, [71861]); (71894, [71862]);
   (71895, [71863]); (71896, [71864]); (71897, [71865]); (71898, [71866]);
   (71899, [71867]); (71900, [71868]); (71901, [71869]); (71902, [71870]);
   (71903, [71871]); (93792, [93760]); (93793, [93761]); (93794, [93762]);
   (93795, [93763]); (93796, [93764]); (93797, [93765]); (93798, [93766]);
   (93799, [93767]); (93800, [93768]); (93801, [93769]); (93802, [93770]);
   (93803, [93771]); (93804, [93772]); (93805, [93773]); (93806, [93774]);
   (93807, [93775]); (93808, [93776]); (93809, [93777]); (93810, [93778]);
   (93811, [93779]); (93812, [93780]); (93813, [93781]); (93814, [93782]);
   (93815, [93783]); (93816, [93784]); (93817, [93785]); (93818, [93786]);
   (93819, [93787]); (93820, [93788]); (93821, [93789]); (93822, [93790]);
   (93823, [93791]); (125218, [125184]); (125219, [125185]);
   (125220, [125186]); (125221, [125187]); (125222, [125188]);
   (125223, [125189]); (125224, [125190]); (125225, [125191]);
   (125226, [125192]); (125227, [125193]); (125228, [125194]);
   (125229, [125195]); (125230, [125196]); (125231, [125197]);
   (125232, [125198]); (125233, [125199]); (125234, [125200]);
   (125235, [125201]); (125236, [125202]); (125237, [125203]);
   (125238, [125204]); (125239, [125205]); (125240, [125206]);
   (125241, [125207]); (125242, [125208]); (125243, [125209]);
   (125244, [125210]); (125245, [125211]); (125246, [125212]);
   (125247, [125213]); (125248, [125214]); (125249, [125215]);
   (125250, [125216]); (125251, [125217])  ].

Fixpoint lookup_upper (c : N) (t : list (N * list N)) : option (list N) :=
  match t with
  | [] => None
  | (k, u) :: t' => if c =? k then Some u else lookup_upper c t'
  end.

(** [_PyUnicode_ToUpperFull]: ASCII letters by the fast path of
    [str.upper()], the rest through the table. *)
Definition to_upper_full (c : N) : list N :=
  if c <? 128 then
    [if (97 <=? c) && (c <=? 122) then c - 32 else c]
  else
    match lookup_upper c upper_table with
    | Some u => u
    | None => [c]
    end.

(** [str.upper()]. *)
Definition upper (s : pystr) : pystr := flat_map to_upper_full s.

(** An upper-case text that starts neither below ["A"] nor with ["Q"]. *)
Definition head_ok (u : list N) : bool :=
  match u with
  | [] => false
  | h :: _ => (65 <=? h) && negb (h =? 81)
  end.

(** ** Values and exceptions *)

(** [sys.int_info.default_max_str_digits]: [str()] of an int with more
    decimal digits raises [ValueError], and so does [int()] of a text
    with more, so an int cell read from a workbook has no more. *)
Definition int_max_str_digits : nat := 4300%nat.

(** The number of decimal digits of an int, its sign apart. *)
Definition int_digits (z : Z) : nat :=
  match Z.to_int z with
  | Decimal.Pos d => Decimal.nb_digits d
  | Decimal.Neg d => Decimal.nb_digits d
  end.

(** The ints that [str()] converts. *)
Definition str_accepts (z : Z) : bool :=
  Nat.leb (int_digits z) int_max_str_digits.

(** The objects a cell of the table (or an argument of the classifier)
    can be: [None], a [bool], an [int] that [str()] converts, the float
    [nan] that pandas uses for a missing cell, a [str], or any other
    cell object (another float, a [Timestamp], ...), which the code only
    observes through the text that [str()] gives for it. *)
Inductive value : Type :=
| VNone
| VBool (b : bool)
| VInt (z : Z) (ok : str_accepts z = true)
| VNaN
| VStr (s : pystr)
| VOther (text : pystr).

Inductive exn : Type :=
| AttributeError
| FileNotFoundError
| ValueError.

Inductive outcome (A : Type) : Type :=
| Return (a : A)
| Raise (e : exn).

Arguments Return {A} a.
Arguments Raise {A} e.

Definition bind {A B : Type} (c : outcome A) (k : A -> outcome B) : outcome B :=
  match c with
  | Return a => k a
  | Raise e => Raise e
  end.

Notation "x <- c ;; k" := (bind c (fun x => k))
  (at level 61, c at next level, right associativity).

(** [q is None]. *)
Definition is_None (q : value) : bool :=
  match q with
  | VNone => true
  | _ => false
  end.

(** The text of the builtin [str(q)]. *)
Definition str_of (q : value) : pystr :=
  match q with
  | VNone => lit "None"
  | VBool true => lit "True"
  | VBool false => lit "False"
  | VInt z _ => lit (NilZero.string_of_int (Z.to_int z))
  | VNaN => lit "nan"
  | VStr s => s
  | VOther text => text
  end.

(** [str(q)]: on the values above it returns; the int it would refuse is
    none of them. *)
Definition py_str (q : value) : outcome value := Return (VStr (str_of q)).

(** A method of [str] called on a value: only a [str] has it. *)
Definition str_method (f : pystr -> pystr) (v : value) : outcome value :=
  match v with
  | VStr s => Return (VStr (f s))
  | _ => Raise AttributeError
  end.

(** [v == "..."] for a string literal: true only of a [str] with the
    same code points. *)
Definition py_eq_str (v : value) (s : pystr) : bool :=
  match v with
  | VStr t => pystr_eqb t s
  | _ => false
  end.

(** ** 1. Classification rules (JCR + SJR) *)

Definition map_quartil_to_level (q : value) : outcome value :=
  if is_None q then Return VNone
  else
    s <- (t <- py_str q ;; t <- str_method strip t ;; str_method upper t) ;;
    if py_eq_str s (lit "Q1") then Return (VStr (lit "MB"))
    else if py_eq_str s (lit "Q2") then Return (VStr (lit "B"))
    else if py_eq_str s (lit "Q3") then Return (VStr (lit "R"))
    else if py_eq_str s (lit "Q4") then Return (VStr (lit "F"))
    else Return VNone.

Definition ordem : list pystr := [lit "MB"; lit "B"; lit "R"; lit "F"].

Definition SEM_CLASSIFICACAO_JCR_SJR : pystr := lit "SEM_CLASSIFICACAO_JCR_SJR".

(** The [for lvl in ordem] loop: [Some lvl] when its body returns,
    [None] when the list is exhausted. *)
Fixpoint for_lvl (jcr_level sjr_level : value) (rest : list pystr) : option value :=
  match rest with
  | [] => None
  | lvl :: rest' =>
      if py_eq_str jcr_level lvl || py_eq_str sjr_level lvl then Some (VStr lvl)
      else for_lvl jcr_level sjr_level rest'
  end.

Definition classify_journal (jcr_quartil sjr_quartil : value) : outcome value :=
  jcr_level <- map_quartil_to_level jcr_quartil ;;
  sjr_level <- map_quartil_to_level sjr_quartil ;;
  match for_lvl jcr_level sjr_level ordem with
  | Some lvl => Return lvl
  | None => Return (VStr SEM_CLASSIFICACAO_JCR_SJR)
  end.

(** ** The two functions with the state of the process in view

    The same bodies, every step now taking the state of the process
    (the globals of the module, the cache of [load_data], the table) and
    handing it on: no step of the source names a global or an attribute
    of a shared object, and [str()], [strip], [upper] and [==] on the
    values above read and write none. *)
Section ProcessState.

Variable world : Type.

Definition io (A : Type) : Type := world -> outcome A * world.

(** A step that leaves the state alone. *)
Definition pure_step {A : Type} (r : outcome A) : io A := fun w => (r, w).

Definition io_bind {A B : Type} (c : io A) (k : A -> io B) : io B :=
  fun w =>
    match c w with
    | (Return a, w') => k a w'
    | (Raise e, w') => (Raise e, w')
    end.

Definition map_quartil_to_level_io (q : value) : io value :=
  if is_None q then pure_step (Return VNone)
  else
    io_bind
      (io_bind (pure_step (py_str q))
         (fun t => io_bind (pure_step (str_method strip t))
                     (fun t => pure_step (str_method upper t))))
      (fun s =>
         if py_eq_str s (lit "Q1") then pure_step (Return (VStr (lit "MB")))
         else if py_eq_str s (lit "Q2") then pure_step (Return (VStr (lit "B")))
         else if py_eq_str s (lit "Q3") then pure_step (Return (VStr (lit "R")))
         else if py_eq_str s (lit "Q4") then pure_step (Return (VStr (lit "F")))
         else pure_step (Return VNone)).

Fixpoint for_lvl_io (jcr_level sjr_level : value) (rest : list pystr)
  : io (option value) :=
  match rest with
  | [] => pure_step (Return None)
  | lvl :: rest' =>
      if py_eq_str jcr_level lvl || py_eq_str sjr_level lvl
      then pure_step (Return (Some (VStr lvl)))
      else for_lvl_io jcr_level sjr_level rest'
  end.

Definition classify_journal_io (jcr_quartil sjr_quartil : value) : io value :=
  io_bind (map_quartil_to_level_io jcr_quartil) (fun jcr_level =>
  io_bind (map_quartil_to_level_io sjr_quartil) (fun sjr_level =>
  io_bind (for_lvl_io jcr_level sjr_level ordem) (fun found =>
    match found with
    | Some lvl => pure_step (Return lvl)
    | None => pure_step (Return (VStr SEM_CLASSIFICACAO_JCR_SJR))
    end))).

End ProcessState.

Arguments pure_step {world A} r.
Arguments io_bind {world A B} c k.
Arguments map_quartil_to_level_io {world} q.
Arguments for_lvl_io {world} jcr_level sjr_level rest.
Arguments classify_journal_io {world} jcr_quartil sjr_quartil.

(** ** The table *)

(** A row handed to the function of [df.apply(..., axis=1)]: a [Series]
    whose labels are the column names. *)
Definition Series := list (pystr * value).

(** A [DataFrame]: the length of its index and its columns in order,
    each with its name and its cells. Column names are unique in a frame
    that [pd.read_excel] builds (it renames duplicates). *)
Record DataFrame : Type := mkDataFrame {
  nrows : nat;
  cols : list (pystr * list value)
}.

(** [df.columns]. *)
Definition columns (df : DataFrame) : list pystr := map fst (cols df).

(** [name in df.columns]. *)
Definition in_columns (name : pystr) (df : DataFrame) : bool :=
  existsb (fun k => pystr_eqb k name) (columns df).

(** [df[name]]'s cells, when the column exists. *)
Fixpoint get_col (name : pystr) (cs : list (pystr * list value)) : option (list value) :=
  match cs with
  | [] => None
  | (k, c) :: cs' => if pystr_eqb k name then Some c else get_col name cs'
  end.

Definition column (name : pystr) (df : DataFrame) : option (list value) :=
  get_col name (cols df).

(** The row of position [i]; a cell that a column lacks reads as [nan].
    (When all columns are numeric, pandas hands the row over in their
    common dtype; that changes the text of no [str] cell.) *)
Definition row_at (df : DataFrame) (i : nat) : Series :=
  map (fun c => (fst c, nth i (snd c) VNaN)) (cols df).

(** [row.get(key)]: the value under the label, [None] when the label is
    not in the index. *)
Fixpoint series_get (row : Series) (key : pystr) : value :=
  match row with
  | [] => VNone
  | (k, v) :: row' => if pystr_eqb k key then v else series_get row' key
  end.

Fixpoint mapM {A B : Type} (f : A -> outcome B) (l : list A) : outcome (list B) :=
  match l with
  | [] => Return []
  | x :: l' => y <- f x ;; ys <- mapM f l' ;; Return (y :: ys)
  end.

(** [df.apply(f, axis=1)]: [f] on every row in index order, the results
    as a column; an exception of [f] propagates. *)
Definition df_apply_rows (f : Series -> outcome value) (df : DataFrame)
  : outcome (list value) :=
  mapM f (map (row_at df) (seq 0 (nrows df))).

(** [df[name] = col]: replaces the column of that name, or adds it after
    the last one. *)
Fixpoint set_col (name : pystr) (col : list value) (cs : list (pystr * list value))
  : list (pystr * list value) :=
  match cs with
  | [] => [(name, col)]
  | (k, c) :: cs' =>
      if pystr_eqb k name then (k, col) :: cs' else (k, c) :: set_col name col cs'
  end.

Definition df_setitem (df : DataFrame) (name : pystr) (col : list value) : DataFrame :=
  {| nrows := nrows df; cols := set_col name col (cols df) |}.

(** ** The loader *)

(** ["Classificação"]: [ç] is U+00E7 and [ã] is U+00E3. *)
Definition CLASSIFICACAO : pystr := lit "Classifica" ++ [231; 227] ++ lit "o".
Definition QUARTIL_JCR : pystr := lit "Quartil_JCR".
Definition SJR_QUARTIL : pystr := lit "SJR_Quartil".

(** [load_data()]; [read_excel] is the outcome of
    [pd.read_excel("JCR_SCImago_integrado_classificado.xlsx")], a frame
    or the exception it raised. The decorator [@st.cache_data] only
    memoizes the call; this is one run of the body. *)
Definition load_data (read_excel : outcome DataFrame) : outcome DataFrame :=
  df <- read_excel ;;
  if negb (in_columns CLASSIFICACAO df) then
    col <- df_apply_rows
             (fun row => classify_journal (series_get row QUARTIL_JCR)
                                          (series_get row SJR_QUARTIL)) df ;;
    Return (df_setitem df CLASSIFICACAO col)
  else Return df.

(** ** Vocabulary of the specification *)

(** The text that the four comparisons of [map_quartil_to_level] see. *)
Definition normalize (s : pystr) : pystr := upper (strip s).

(** The tier of a normalized token. *)
Definition level_of_token (t : pystr) : value :=
  if pystr_eqb t (lit "Q1") then VStr (lit "MB")
  else if pystr_eqb t (lit "Q2") then VStr (lit "B")
  else if pystr_eqb t (lit "Q3") then VStr (lit "R")
  else if pystr_eqb t (lit "Q4") then VStr (lit "F")
  else VNone.

(** The level [map_quartil_to_level] gives to a value. *)
Definition level_of (q : value) : value :=
  if is_None q then VNone else level_of_token (normalize (str_of q)).

(** A run of whitespace. *)
Definition spaces (l : pystr) : Prop := Forall (fun x => is_space x = true) l.

(** [s] is the letter Q, in either case, followed by the digit [d],
    between runs of whitespace. *)
Definition quartile_text (d : N) (s : pystr) : Prop :=
  exists l r c,
    s = l ++ [c; d] ++ r /\ spaces l /\ spaces r /\ (c = 81 \/ c = 113).

(** The values [map_quartil_to_level] can return. *)
Definition is_level (v : value) : Prop :=
  v = VNone \/ v = VStr (lit "MB") \/ v = VStr (lit "B") \/
  v = VStr (lit "R") \/ v = VStr (lit "F").

(** The first tier of a priority list that one of the two levels equals. *)
Definition first_in_order (order : list pystr) (jcr_level sjr_level : value)
  : option pystr :=
  find (fun lvl => py_eq_str jcr_level lvl || py_eq_str sjr_level lvl) order.

(** Position of a level in MB > B > R > F; 4 for no level. *)
Definition rank (level : value) : nat :=
  if py_eq_str level (lit "MB") then 0
  else if py_eq_str level (lit "B") then 1
  else if py_eq_str level (lit "R") then 2
  else if py_eq_str level (lit "F") then 3
  else 4.

Definition tier_of_rank (n : nat) : pystr := nth n ordem SEM_CLASSIFICACAO_JCR_SJR.

(** The better of two levels. *)
Definition best (jcr_level sjr_level : value) : pystr :=
  tier_of_rank (Nat.min (rank jcr_level) (rank sjr_level)).

(** The five tier tokens. *)
Definition tier_tokens : list pystr := ordem ++ [SEM_CLASSIFICACAO_JCR_SJR].

(** A value that is one of the five tokens. *)
Definition is_tier_token (v : value) : Prop :=
  exists t, v = VStr t /\ In t tier_tokens.

(** The value [classify_journal] returns. *)
Definition tier_of (a b : value) : value :=
  match classify_journal a b with
  | Return v => v
  | Raise _ => VNone
  end.

(** The column the loader computes for a frame without classification. *)
Definition backfill (df : DataFrame) : list value :=
  map (fun i => tier_of (series_get (row_at df i) QUARTIL_JCR)
                        (series_get (row_at df i) SJR_QUARTIL))
      (seq 0 (nrows df)).

(** Sample frames. *)

(** Two journals, with quartiles and no classification. *)
Definition frame_quartiles : DataFrame :=
  {| nrows := 2;
     cols := [ (lit "Titulo_JCR", [VStr (lit "Lancet"); VStr (lit "Acta")]);
               (QUARTIL_JCR, [VStr (lit "Q3"); VNaN]);
               (SJR_QUARTIL, [VStr (lit " q1"); VStr (lit "-")]) ] |}.

(** A classification that disagrees with the quartiles, and a value that
    is no tier. *)
Definition frame_stale : DataFrame :=
  {| nrows := 2;
     cols := [ (QUARTIL_JCR, [VStr (lit "Q1"); VStr (lit "Q2")]);
               (SJR_QUARTIL, [VStr (lit "Q1"); VNaN]);
               (CLASSIFICACAO, [VStr (lit "F"); VStr (lit "A1")]) ] |}.

(** Neither quartile column nor classification. *)
Definition frame_titles : DataFrame :=
  {| nrows := 2;
     cols := [ (lit "Titulo_JCR", [VStr (lit "Lancet"); VStr (lit "Acta")]) ] |}.

(** ** 2. The page: options, filters, table and manual classifier

    The statements of the script after [df = load_data()], as functions
    of the frame and of what the widgets return. [None] stands for the
    [KeyError] of [df[name]] on a column that the frame lacks. *)

(** A frame in which every column has one cell per row. *)
Definition frame_ok (df : DataFrame) : Prop :=
  Forall (fun c => List.length (snd c) = nrows df) (cols df).

Definition classes_order : list pystr :=
  [lit "MB"; lit "B"; lit "R"; lit "F"; lit "SEM_CLASSIFICACAO_JCR_SJR"].

(** [[c for c in classes_order if c in df["Classificação"].unique()]]:
    the distinct values are cells of the column and every cell is one
    of them, so a string is among them when a cell equals it. *)
Definition classes_avail (df : DataFrame) : option (list pystr) :=
  match column CLASSIFICACAO df with
  | Some col =>
      Some (filter (fun c => existsb (fun v => py_eq_str v c) col) classes_order)
  | None => None
  end.

(** The missing markers that [dropna()] removes. *)
Definition is_na (v : value) : bool :=
  match v with
  | VNone | VNaN => true
  | _ => false
  end.

Definition dropna (col : list value) : list value :=
  filter (fun v => negb (is_na v)) col.

(** [astype(str)] on a column of objects: [str()] of every cell, a
    missing one included (pandas before 3.0). *)
Definition astype_str (col : list value) : list pystr := map str_of col.

(** [unique()] on texts: the values in order of first appearance. *)
Fixpoint unique_from (seen l : list pystr) : list pystr :=
  match l with
  | [] => []
  | x :: r =>
      if existsb (pystr_eqb x) seen then unique_from seen r
      else x :: unique_from (x :: seen) r
  end.

Definition unique (l : list pystr) : list pystr := unique_from [] l.

(** [a < b] on [str]: lexicographic on code points. *)
Fixpoint pystr_ltb (a b : pystr) : bool :=
  match a, b with
  | _, [] => false
  | [], _ :: _ => true
  | x :: a', y :: b' => (x <? y) || ((x =? y) && pystr_ltb a' b')
  end.

Definition lt_str (a b : pystr) : Prop := pystr_ltb a b = true.

(** [a <= b]: not [b < a]. *)
Definition le_str (a b : pystr) : Prop := pystr_ltb b a = false.

(** [sorted()]: a stable sort that compares with [<]. *)
Fixpoint insert_sorted (x : pystr) (l : list pystr) : list pystr :=
  match l with
  | [] => [x]
  | y :: r => if pystr_ltb x y then x :: l else y :: insert_sorted x r
  end.

Definition sorted (l : list pystr) : list pystr :=
  fold_left (fun acc x => insert_sorted x acc) l [].

(** [sorted(df[name].dropna().astype(str).unique())], the options of a
    quartile filter. *)
Definition quartil_opts (name : pystr) (df : DataFrame) : option (list pystr) :=
  match column name df with
  | Some col => Some (sorted (unique (astype_str (dropna col))))
  | None => None
  end.

Definition jcr_opts (df : DataFrame) : option (list pystr) :=
  quartil_opts QUARTIL_JCR df.

Definition sjr_opts (df : DataFrame) : option (list pystr) :=
  quartil_opts SJR_QUARTIL df.

(** [col.isin(sel)] for a list of strings: a cell is in it when it is a
    [str] equal to one of them. *)
Definition isin (sel : list pystr) (col : list value) : list bool :=
  map (fun v => existsb (py_eq_str v) sel) col.

(** The entries of a list at the positions where the mask is true. *)
Definition select_rows {A : Type} (mask : list bool) (l : list A) : list A :=
  map snd (filter fst (combine mask l)).

(** [df[mask]]: the rows where the mask is true, with all columns. *)
Definition df_mask (mask : list bool) (df : DataFrame) : DataFrame :=
  {| nrows := List.length (select_rows mask (seq 0 (nrows df)));
     cols := map (fun c => (fst c, select_rows mask (snd c))) (cols df) |}.

(** [if classe_sel: df_filt = df_filt[df_filt["Classificação"].isin(classe_sel)]] *)
Definition filter_classe (classe_sel : list pystr) (df_filt : DataFrame)
  : option DataFrame :=
  match classe_sel with
  | [] => Some df_filt
  | _ :: _ =>
      match column CLASSIFICACAO df_filt with
      | Some col => Some (df_mask (isin classe_sel col) df_filt)
      | None => None
      end
  end.

(** [if sel: df_filt = df_filt[df_filt[name].astype(str).isin(sel)]],
    the filter on [Quartil_JCR] and the one on [SJR_Quartil]. *)
Definition filter_quartil (name : pystr) (sel : list pystr) (df_filt : DataFrame)
  : option DataFrame :=
  match sel with
  | [] => Some df_filt
  | _ :: _ =>
      match column name df_filt with
      | Some col => Some (df_mask (isin sel (map VStr (astype_str col))) df_filt)
      | None => None
      end
  end.

(** The three filters in the order of the script, from [df_filt = df.copy()]
    to the filter on [SJR_Quartil]; a [KeyError] stops the run. *)
Definition apply_filters (classe_sel jcr_sel sjr_sel : list pystr) (df : DataFrame)
  : option DataFrame :=
  let df_filt := df in
  match filter_classe classe_sel df_filt with
  | Some df_filt =>
      match filter_quartil QUARTIL_JCR jcr_sel df_filt with
      | Some df_filt => filter_quartil SJR_QUARTIL sjr_sel df_filt
      | None => None
      end
  | None => None
  end.

(** The rows of a frame, in index order. *)
Definition rows (df : DataFrame) : list Series :=
  map (row_at df) (seq 0 (nrows df)).

(** What a selection lets through: everything when it is empty. *)
Definition classe_selected (classe_sel : list pystr) (v : value) : bool :=
  match classe_sel with
  | [] => true
  | _ :: _ => existsb (py_eq_str v) classe_sel
  end.

Definition quartil_selected (sel : list pystr) (v : value) : bool :=
  match sel with
  | [] => true
  | _ :: _ => existsb (pystr_eqb (str_of v)) sel
  end.

(** [df_filt["Classificação"].value_counts().reindex(classes_order, fill_value=0)]:
    [value_counts] gives every distinct value its number of cells, and
    [reindex] reads the entries of the five labels, 0 for a label that
    has none; the count of a label is the number of cells equal to it. *)
Definition class_counts (df_filt : DataFrame) : option (list (pystr * nat)) :=
  match column CLASSIFICACAO df_filt with
  | Some col =>
      Some (map (fun c => (c, List.length (filter (fun v => py_eq_str v c) col)))
                classes_order)
  | None => None
  end.

(** The candidates of the table, in display order; [í] is U+00ED, [ã]
    U+00E3 and [Á] U+00C1. *)
Definition show_candidates : list pystr :=
  [lit "Titulo_SCImago"; lit "Titulo_JCR"; lit "ISSN_SCImago";
   CLASSIFICACAO;
   QUARTIL_JCR; SJR_QUARTIL;
   lit "Pa" ++ [237] ++ lit "s"; lit "Regi" ++ [227] ++ lit "o";
   [193] ++ lit "reas_SCI"; lit "Categorias_SCI"; lit "Categorias_JCR"].

(** The loop that fills [cols_to_show], from the candidates still to
    visit and the list built so far. *)
Fixpoint cols_to_show_loop (df_view : DataFrame) (cands cols_to_show : list pystr)
  : list pystr :=
  match cands with
  | [] => cols_to_show
  | c :: rest =>
      if in_columns c df_view && negb (existsb (pystr_eqb c) cols_to_show)
      then cols_to_show_loop df_view rest (cols_to_show ++ [c])
      else cols_to_show_loop df_view rest cols_to_show
  end.

Definition cols_to_show (df_view : DataFrame) : list pystr :=
  cols_to_show_loop df_view show_candidates [].

(** [df[names]]: the named columns in the order asked. *)
Fixpoint getitem_cols (names : list pystr) (cs : list (pystr * list value))
  : option (list (pystr * list value)) :=
  match names with
  | [] => Some []
  | n :: rest =>
      match get_col n cs, getitem_cols rest cs with
      | Some c, Some cs' => Some ((n, c) :: cs')
      | _, _ => None
      end
  end.

Definition df_getitem_cols (names : list pystr) (df : DataFrame) : option DataFrame :=
  match getitem_cols names (cols df) with
  | Some cs => Some {| nrows := nrows df; cols := cs |}
  | None => None
  end.

(** The body of [if st.button("Classificar")], from the two selections;
    its value is [classe]. *)
Definition classe_manual (jcr_manual sjr_manual : pystr) : outcome value :=
  let jcr_val :=
    if negb (pystr_eqb jcr_manual (lit "")) then VStr jcr_manual else VNone in
  let sjr_val :=
    if negb (existsb (pystr_eqb sjr_manual) [lit ""; lit "-"])
    then VStr sjr_manual else VNone in
  classify_journal jcr_val sjr_val.

(** A frame whose classification column has a cell that is no tier and a
    missing cell. *)
Definition frame_mixed : DataFrame :=
  {| nrows := 3;
     cols := [ (QUARTIL_JCR, [VStr (lit "Q1"); VNaN; VStr (lit "Q2")]);
               (CLASSIFICACAO, [VStr (lit "MB"); VStr (lit "A1"); VNaN]) ] |}.

(** * Properties *)

Local Open Scope N_scope.

(** ** Sample runs *)

Example classify_q3_q1 :
  classify_journal (VStr (lit "Q3")) (VStr (lit "Q1")) = Return (VStr (lit "MB")).
Proof. reflexivity. Qed.

Example classify_q4_q2 :
  classify_journal (VStr (lit "Q4")) (VStr (lit "Q2")) = Return (VStr (lit "B")).
Proof. reflexivity. Qed.

Example classify_case_space :
  classify_journal (VStr (lit "q1")) (VStr (lit " Q4 ")) = Return (VStr (lit "MB")).
Proof. reflexivity. Qed.

Example classify_dash_none :
  classify_journal (VStr (lit "-")) VNone = Return (VStr SEM_CLASSIFICACAO_JCR_SJR).
Proof. reflexivity. Qed.

Example classify_none_none :
  classify_journal VNone VNone = Return (VStr SEM_CLASSIFICACAO_JCR_SJR).
Proof. reflexivity. Qed.

(** An [int] cell, and a Q2 between an em space and a no-break space. *)
Example classify_int_unicode_space :
  classify_journal (VInt (-12) eq_refl) (VStr [8195; 113; 50; 160])
  = Return (VStr (lit "B")).
Proof. reflexivity. Qed.

(** The limit of [str()] on ints: 4300 digits pass, with either sign, and
    4301 do not. *)
Example str_accepts_limit :
  str_accepts (10 ^ 4300 - 1) = true /\
  str_accepts (- (10 ^ 4300 - 1)) = true /\
  str_accepts (10 ^ 4300) = false /\
  str_accepts (- 10 ^ 4300) = false.
Proof. repeat split; vm_compute; reflexivity. Qed.

(** The fullwidth letters are not the ASCII ones. *)
Example map_fullwidth :
  map_quartil_to_level (VStr [65361; 49]) = Return VNone.
Proof. vm_compute. reflexivity. Qed.

Example load_data_read_fails :
  load_data (Raise FileNotFoundError) = Raise FileNotFoundError.
Proof. reflexivity. Qed.

(** ** Strings *)

Lemma pystr_eqb_eq (a b : pystr) : pystr_eqb a b = true <-> a = b.
Proof.
  revert b; induction a as [|x a IH]; intros [|y b]; simpl; split;
    try congruence; try reflexivity.
  - intros H. apply andb_true_iff in H as [Hx Hab].
    apply N.eqb_eq in Hx. apply IH in Hab. congruence.
  - intros H. injection H as -> ->.
    rewrite N.eqb_refl. simpl. now apply IH.
Qed.

Lemma pystr_eqb_refl (a : pystr) : pystr_eqb a a = true.
Proof. now apply pystr_eqb_eq. Qed.

Lemma pystr_eqb_neq (a b : pystr) : pystr_eqb a b = false <-> a <> b.
Proof.
  split.
  - intros H E. apply pystr_eqb_eq in E. congruence.
  - intros H. destruct (pystr_eqb a b) eqn:E; [|reflexivity].
    apply pystr_eqb_eq in E. contradiction.
Qed.

Lemma lstrip_spaces (l s : pystr) : spaces l -> lstrip (l ++ s) = lstrip s.
Proof.
  unfold spaces. induction 1 as [|c l Hc _ IH]; simpl; [reflexivity|].
  now rewrite Hc.
Qed.

Lemma lstrip_split (s : pystr) : exists l, s = l ++ lstrip s /\ spaces l.
Proof.
  unfold spaces. induction s as [|c s [l [E Hl]]]; simpl.
  - exists []. split; [reflexivity | constructor].
  - destruct (is_space c) eqn:Hc.
    + exists (c :: l). split; [simpl; congruence | now constructor].
    + exists []. split; [reflexivity | constructor].
Qed.

Lemma spaces_rev (l : pystr) : spaces l -> spaces (rev l).
Proof.
  unfold spaces. intros H. apply Forall_forall. intros x Hx. apply in_rev in Hx.
  revert x Hx. now apply Forall_forall.
Qed.

(** [strip] yields a two-character text with no blank at its ends
    exactly on that text between two runs of whitespace. *)
Lemma strip_two (s : pystr) (c d : N) :
  is_space c = false -> is_space d = false ->
  strip s = [c; d] <->
  exists l r, s = l ++ [c; d] ++ r /\ spaces l /\ spaces r.
Proof.
  intros Hc Hd. unfold strip, rstrip. split.
  - intros H.
    destruct (lstrip_split s) as [l [Es Hl]].
    apply (f_equal (@rev N)) in H. rewrite rev_involutive in H. simpl in H.
    destruct (lstrip_split (rev (lstrip s))) as [l' [E' Hl']].
    rewrite H in E'.
    apply (f_equal (@rev N)) in E'. rewrite rev_involutive, rev_app_distr in E'.
    simpl in E'.
    exists l, (rev l'). repeat split.
    + rewrite Es at 1. now rewrite E'.
    + exact Hl.
    + now apply spaces_rev.
  - intros [l [r [-> [Hl Hr]]]].
    rewrite (lstrip_spaces l _ Hl). simpl. rewrite Hc.
    change (c :: d :: r) with ([c; d] ++ r).
    rewrite rev_app_distr.
    rewrite (lstrip_spaces (rev r) _ (spaces_rev r Hr)).
    simpl. rewrite Hd. reflexivity.
Qed.

(** ** Upper-casing *)

Lemma lookup_upper_In (c : N) (t : list (N * list N)) (u : list N) :
  lookup_upper c t = Some u -> In (c, u) t.
Proof.
  induction t as [|[k v] t IH]; simpl; [discriminate|].
  destruct (c =? k) eqn:E.
  - intros H. injection H as ->. apply N.eqb_eq in E. subst. now left.
  - intros H. right. now apply IH.
Qed.

(** No entry of the table starts below ["A"] or with ["Q"]. *)
Lemma upper_table_heads : forallb (fun e => head_ok (snd e)) upper_table = true.
Proof. vm_compute. reflexivity. Qed.

Lemma to_upper_full_ascii (c : N) :
  c < 128 ->
  to_upper_full c = [if (97 <=? c) && (c <=? 122) then c - 32 else c].
Proof.
  intros H. unfold to_upper_full.
  apply N.ltb_lt in H. now rewrite H.
Qed.

Lemma to_upper_full_nonascii (c : N) :
  128 <= c ->
  exists h tl, to_upper_full c = h :: tl /\ 65 <= h /\ h <> 81.
Proof.
  intros H. unfold to_upper_full.
  destruct (c <? 128) eqn:E; [apply N.ltb_lt in E; lia|].
  destruct (lookup_upper c upper_table) as [u|] eqn:L.
  - apply lookup_upper_In in L.
    pose proof upper_table_heads as T.
    rewrite forallb_forall in T. specialize (T _ L). simpl in T.
    destruct u as [|h tl]; [discriminate|].
    simpl in T. apply andb_true_iff in T as [T1 T2].
    apply N.leb_le in T1. apply negb_true_iff, N.eqb_neq in T2.
    now exists h, tl.
  - exists c, []. repeat split; lia.
Qed.

Lemma to_upper_full_cons (c : N) : exists h tl, to_upper_full c = h :: tl.
Proof.
  destruct (N.lt_ge_cases c 128) as [H|H].
  - rewrite (to_upper_full_ascii c H). eauto.
  - destruct (to_upper_full_nonascii c H) as [h [tl [E _]]]. eauto.
Qed.

Lemma upper_nil (t : pystr) : upper t = [] -> t = [].
Proof.
  destruct t as [|c t]; [reflexivity|].
  unfold upper. simpl.
  destruct (to_upper_full_cons c) as [h [tl ->]]. discriminate.
Qed.

(** A single code point whose upper case is exactly [x], for [x] the
    letter Q or a digit 1 to 4. *)
Lemma to_upper_full_one (c x : N) (rest : list N) :
  x = 81 \/ (49 <= x <= 52) ->
  to_upper_full c ++ rest = [x] ->
  rest = [] /\ (c = x \/ (x = 81 /\ c = 113)).
Proof.
  intros Hx H.
  destruct (N.lt_ge_cases c 128) as [Hc|Hc].
  - rewrite (to_upper_full_ascii c Hc) in H. simpl in H.
    injection H as H Hr. split; [exact Hr|].
    destruct ((97 <=? c) && (c <=? 122)) eqn:E.
    + apply andb_true_iff in E as [E1 E2].
      apply N.leb_le in E1. apply N.leb_le in E2. lia.
    + now left.
  - destruct (to_upper_full_nonascii c Hc) as [h [tl [E [H1 H2]]]].
    rewrite E in H. simpl in H. injection H as H _. lia.
Qed.

Lemma to_upper_full_first (c x y : N) (rest : list N) :
  x = 81 ->
  to_upper_full c ++ rest = [x; y] ->
  rest = [y] /\ (c = 81 \/ c = 113).
Proof.
  intros Hx H.
  destruct (N.lt_ge_cases c 128) as [Hc|Hc].
  - rewrite (to_upper_full_ascii c Hc) in H. simpl in H.
    injection H as H Hr. split; [exact Hr|].
    destruct ((97 <=? c) && (c <=? 122)) eqn:E.
    + apply andb_true_iff in E as [E1 E2].
      apply N.leb_le in E1. apply N.leb_le in E2. lia.
    + lia.
  - destruct (to_upper_full_nonascii c Hc) as [h [tl [E [H1 H2]]]].
    rewrite E in H. simpl in H. injection H as H _. lia.
Qed.

(** The texts that upper-case to Q followed by a digit 1 to 4. *)
Lemma upper_token (t : pystr) (d : N) :
  49 <= d <= 52 ->
  upper t = [81; d] <-> t = [81; d] \/ t = [113; d].
Proof.
  intros Hd. split.
  - intros H. destruct t as [|c t]; [discriminate|].
    unfold upper in H. simpl in H. fold (upper t) in H.
    apply to_upper_full_first in H as [H Hc]; [|reflexivity].
    destruct t as [|c2 t]; [discriminate|].
    unfold upper in H. simpl in H. fold (upper t) in H.
    apply to_upper_full_one in H as [H Hc2]; [|now right].
    apply upper_nil in H. subst t.
    assert (c2 = d) as -> by lia.
    destruct Hc as [-> | ->]; auto.
  - assert (D : d = 49 \/ d = 50 \/ d = 51 \/ d = 52) by lia.
    intros [-> | ->]; destruct D as [-> | [-> | [-> | ->]]]; reflexivity.
Qed.

Lemma quartile_text_normalize (d : N) (s : pystr) :
  49 <= d <= 52 ->
  quartile_text d s <-> normalize s = [81; d].
Proof.
  intros Hd.
  assert (Sd : is_space d = false).
  { assert (D : d = 49 \/ d = 50 \/ d = 51 \/ d = 52) by lia.
    destruct D as [-> | [-> | [-> | ->]]]; reflexivity. }
  unfold normalize, quartile_text. rewrite (upper_token _ d Hd). split.
  - intros [l [r [c [E [Hl [Hr [-> | ->]]]]]]]; [left | right];
      apply strip_two; eauto.
  - intros [H | H]; apply strip_two in H; try assumption; try reflexivity;
      destruct H as [l [r [E [Hl Hr]]]]; exists l, r;
      [exists 81 | exists 113]; auto.
Qed.

(** ** 1. Classification rules *)

Lemma level_of_token_is_level (t : pystr) : is_level (level_of_token t).
Proof.
  unfold level_of_token, is_level.
  repeat match goal with |- context [if ?b then _ else _] => destruct b end;
    auto 6.
Qed.

Lemma level_of_token_eq (t : pystr) :
  (level_of_token t = VStr (lit "MB") <-> t = [81; 49]) /\
  (level_of_token t = VStr (lit "B") <-> t = [81; 50]) /\
  (level_of_token t = VStr (lit "R") <-> t = [81; 51]) /\
  (level_of_token t = VStr (lit "F") <-> t = [81; 52]) /\
  (level_of_token t = VNone <->
   t <> [81; 49] /\ t <> [81; 50] /\ t <> [81; 51] /\ t <> [81; 52]).
Proof.
  unfold level_of_token.
  change (lit "Q1") with [81; 49]. change (lit "Q2") with [81; 50].
  change (lit "Q3") with [81; 51]. change (lit "Q4") with [81; 52].
  destruct (pystr_eqb t [81; 49]) eqn:E1;
    [apply pystr_eqb_eq in E1; subst t; repeat split; intros; try reflexivity;
     try discriminate; try tauto|].
  destruct (pystr_eqb t [81; 50]) eqn:E2;
    [apply pystr_eqb_eq in E2; subst t; repeat split; intros; try reflexivity;
     try discriminate; try tauto|].
  destruct (pystr_eqb t [81; 51]) eqn:E3;
    [apply pystr_eqb_eq in E3; subst t; repeat split; intros; try reflexivity;
     try discriminate; try tauto|].
  destruct (pystr_eqb t [81; 52]) eqn:E4;
    [apply pystr_eqb_eq in E4; subst t; repeat split; intros; try reflexivity;
     try discriminate; try tauto|].
  apply pystr_eqb_neq in E1, E2, E3, E4.
  repeat split; intros; try discriminate; try contradiction; tauto.
Qed.

Lemma level_of_normalize (q : value) :
  level_of q = level_of_token (normalize (str_of q)).
Proof. destruct q; reflexivity. Qed.

Lemma level_of_is_level (q : value) : is_level (level_of q).
Proof. rewrite level_of_normalize. apply level_of_token_is_level. Qed.

(** What the body of [map_quartil_to_level] computes, with no exception:
    [str()] gives a [str], which has [strip] and [upper]. *)
Lemma map_quartil_to_level_returns (q : value) :
  map_quartil_to_level q = Return (level_of q).
Proof.
  unfold map_quartil_to_level, level_of.
  destruct (is_None q); [reflexivity|].
  unfold py_str, bind, str_method, py_eq_str, level_of_token, normalize.
  repeat match goal with |- context [if ?b then _ else _] => destruct b end;
    reflexivity.
Qed.

(** The loop is a search for the first tier of the list. *)
Lemma for_lvl_find (jl sl : value) (order : list pystr) :
  for_lvl jl sl order = option_map VStr (first_in_order order jl sl).
Proof.
  unfold first_in_order. induction order as [|lvl order IH]; simpl.
  - reflexivity.
  - destruct (py_eq_str jl lvl || py_eq_str sl lvl); [reflexivity | exact IH].
Qed.

Lemma classify_journal_for_lvl (a b : value) :
  classify_journal a b =
  Return (match for_lvl (level_of a) (level_of b) ordem with
          | Some lvl => lvl
          | None => VStr SEM_CLASSIFICACAO_JCR_SJR
          end).
Proof.
  unfold classify_journal.
  rewrite !map_quartil_to_level_returns. cbn [bind].
  destruct (for_lvl (level_of a) (level_of b) ordem); reflexivity.
Qed.

(** Case analysis on the two levels. *)
Ltac by_levels a b :=
  destruct (level_of_is_level a) as [?H | [?H | [?H | [?H | ?H]]]];
  destruct (level_of_is_level b) as [?H | [?H | [?H | [?H | ?H]]]];
  repeat match goal with H : level_of _ = _ |- _ => rewrite H in *; clear H end.

Lemma classify_journal_in_tokens (a b : value) :
  exists t, classify_journal a b = Return (VStr t) /\ In t tier_tokens.
Proof.
  rewrite classify_journal_for_lvl.
  by_levels a b;
    (eexists; split; [reflexivity | vm_compute; tauto]).
Qed.

Lemma classify_journal_tier_of (a b : value) :
  classify_journal a b = Return (tier_of a b).
Proof.
  unfold tier_of.
  destruct (classify_journal_in_tokens a b) as [t [-> _]]. reflexivity.
Qed.

(** C1: both mappings return, and for the levels they return
    [classify_journal] returns the first tier of [MB, B, R, F] that one
    of the two levels equals, and the sentinel when there is none; this
    is the better of the two levels, and it is the sentinel exactly
    when both levels are [None]. *)
Theorem classify_journal_first_in_order (jcr sjr : value) :
  (exists jcr_level sjr_level,
     map_quartil_to_level jcr = Return jcr_level /\
     map_quartil_to_level sjr = Return sjr_level) /\
  forall jcr_level sjr_level,
    map_quartil_to_level jcr = Return jcr_level ->
    map_quartil_to_level sjr = Return sjr_level ->
    classify_journal jcr sjr =
      Return (VStr (match first_in_order ordem jcr_level sjr_level with
                    | Some lvl => lvl
                    | None => SEM_CLASSIFICACAO_JCR_SJR
                    end)) /\
    classify_journal jcr sjr = Return (VStr (best jcr_level sjr_level)) /\
    (classify_journal jcr sjr = Return (VStr SEM_CLASSIFICACAO_JCR_SJR) <->
     jcr_level = VNone /\ sjr_level = VNone).
Proof.
  split; [exists (level_of jcr), (level_of sjr);
          split; apply map_quartil_to_level_returns|].
  intros jcr_level sjr_level J S.
  rewrite map_quartil_to_level_returns in J, S.
  injection J as <-. injection S as <-.
  rewrite classify_journal_for_lvl, for_lvl_find.
  split; [destruct (first_in_order ordem (level_of jcr) (level_of sjr)); reflexivity|].
  by_levels jcr sjr; (split; [reflexivity|]); split;
    try (intros H; now vm_compute in H);
    try (intros [H1 H2]; discriminate);
    try (intros _; split; reflexivity);
    try (intros _; reflexivity).
Qed.

Lemma classify_journal_first_in_order_witness :
  (map_quartil_to_level (VStr (lit "Q3")) = Return (VStr (lit "R")) /\
   map_quartil_to_level (VStr (lit " q1")) = Return (VStr (lit "MB"))) /\
  classify_journal (VStr (lit "Q3")) (VStr (lit " q1")) =
    Return (VStr (match first_in_order ordem (VStr (lit "R")) (VStr (lit "MB")) with
                  | Some lvl => lvl
                  | None => SEM_CLASSIFICACAO_JCR_SJR
                  end)) /\
  classify_journal (VStr (lit "Q3")) (VStr (lit " q1")) =
    Return (VStr (best (VStr (lit "R")) (VStr (lit "MB")))) /\
  (classify_journal (VStr (lit "Q3")) (VStr (lit " q1")) =
     Return (VStr SEM_CLASSIFICACAO_JCR_SJR) <->
   VStr (lit "R") = VNone /\ VStr (lit "MB") = VNone).
Proof.
  split; [split; reflexivity|].
  apply (proj2 (classify_journal_first_in_order (VStr (lit "Q3")) (VStr (lit " q1"))));
    reflexivity.
Defined.

(** C2: [map_quartil_to_level] compares the trimmed, upper-cased text of
    [str(q)] with the four tokens: it returns MB, B, R, F exactly on the
    letter Q (either case) followed by 1, 2, 3, 4 between runs of
    whitespace, and [None] on every other value, among them [None], a
    missing cell, the empty string, ["-"], ["N/A"] and ["Q5"]. The same
    is stated on a [str] itself, and on sample texts. *)
Theorem map_quartil_to_level_contract (q : value) :
  map_quartil_to_level q =
    (if is_None q then Return VNone
     else Return (level_of_token (upper (strip (str_of q))))) /\
  (map_quartil_to_level q = Return (VStr (lit "MB")) <-> quartile_text 49 (str_of q)) /\
  (map_quartil_to_level q = Return (VStr (lit "B")) <-> quartile_text 50 (str_of q)) /\
  (map_quartil_to_level q = Return (VStr (lit "R")) <-> quartile_text 51 (str_of q)) /\
  (map_quartil_to_level q = Return (VStr (lit "F")) <-> quartile_text 52 (str_of q)) /\
  (map_quartil_to_level q = Return VNone <->
   ~ quartile_text 49 (str_of q) /\ ~ quartile_text 50 (str_of q) /\
   ~ quartile_text 51 (str_of q) /\ ~ quartile_text 52 (str_of q)) /\
  Forall (fun v => map_quartil_to_level v = Return VNone)
    [VNone; VNaN; VStr []; VStr (lit "-"); VStr (lit "N/A"); VStr (lit "Q5")] /\
  (forall s : pystr,
     (map_quartil_to_level (VStr s) = Return (VStr (lit "MB")) <-> quartile_text 49 s) /\
     (map_quartil_to_level (VStr s) = Return (VStr (lit "B")) <-> quartile_text 50 s) /\
     (map_quartil_to_level (VStr s) = Return (VStr (lit "R")) <-> quartile_text 51 s) /\
     (map_quartil_to_level (VStr s) = Return (VStr (lit "F")) <-> quartile_text 52 s) /\
     (map_quartil_to_level (VStr s) = Return VNone <->
      ~ quartile_text 49 s /\ ~ quartile_text 50 s /\
      ~ quartile_text 51 s /\ ~ quartile_text 52 s)) /\
  map_quartil_to_level (VStr (lit "Q1")) = Return (VStr (lit "MB")) /\
  map_quartil_to_level (VStr (lit " q2 ")) = Return (VStr (lit "B")) /\
  map_quartil_to_level (VStr ([9; 160] ++ lit "Q3" ++ [10])) = Return (VStr (lit "R")) /\
  map_quartil_to_level (VStr (lit "q4  ")) = Return (VStr (lit "F")) /\
  Forall (fun v => map_quartil_to_level v = Return VNone)
    [VBool true; VBool false; VInt 1 eq_refl; VInt (-4) eq_refl;
     VStr (lit "Q"); VStr (lit "Q 1"); VStr (lit "1Q"); VStr (lit "Q11");
     VStr (lit "MB"); VOther (lit "2.0")] /\
  map_quartil_to_level (VOther (lit "Q1")) = Return (VStr (lit "MB")).
Proof.
  assert (G : forall v,
    (map_quartil_to_level v = Return (VStr (lit "MB")) <-> quartile_text 49 (str_of v)) /\
    (map_quartil_to_level v = Return (VStr (lit "B")) <-> quartile_text 50 (str_of v)) /\
    (map_quartil_to_level v = Return (VStr (lit "R")) <-> quartile_text 51 (str_of v)) /\
    (map_quartil_to_level v = Return (VStr (lit "F")) <-> quartile_text 52 (str_of v)) /\
    (map_quartil_to_level v = Return VNone <->
     ~ quartile_text 49 (str_of v) /\ ~ quartile_text 50 (str_of v) /\
     ~ quartile_text 51 (str_of v) /\ ~ quartile_text 52 (str_of v))).
  { intros v.
    assert (R : forall r, map_quartil_to_level v = Return r <->
                          level_of_token (normalize (str_of v)) = r).
    { intros r. rewrite map_quartil_to_level_returns, level_of_normalize.
      split; [intros H; now injection H | intros ->; reflexivity]. }
    rewrite !R.
    rewrite !quartile_text_normalize by lia.
    destruct (level_of_token_eq (normalize (str_of v))) as [H1 [H2 [H3 [H4 H5]]]].
    split; [exact H1|]. split; [exact H2|]. split; [exact H3|].
    split; [exact H4 | exact H5]. }
  split.
  { rewrite map_quartil_to_level_returns. unfold level_of.
    destruct (is_None q); reflexivity. }
  destruct (G q) as [H1 [H2 [H3 [H4 H5]]]].
  split; [exact H1|]. split; [exact H2|]. split; [exact H3|].
  split; [exact H4|]. split; [exact H5|].
  split; [repeat constructor|].
  split; [intros s; exact (G (VStr s))|].
  repeat split; repeat constructor.
Qed.

(** C7: swapping the two arguments of [classify_journal] does not
    change the result. *)
Theorem classify_journal_comm (a b : value) :
  classify_journal a b = classify_journal b a.
Proof.
  rewrite !classify_journal_for_lvl.
  by_levels a b; reflexivity.
Qed.

(** C8: with the same value for both sources, the mapping returns, and
    for the level it returns [classify_journal] returns that level, and
    the sentinel when the level is [None]. *)
Theorem classify_journal_same (q : value) :
  (exists level, map_quartil_to_level q = Return level) /\
  forall level,
    map_quartil_to_level q = Return level ->
    classify_journal q q =
      Return (if is_None level then VStr SEM_CLASSIFICACAO_JCR_SJR else level).
Proof.
  split; [exists (level_of q); apply map_quartil_to_level_returns|].
  intros level L. rewrite map_quartil_to_level_returns in L. injection L as <-.
  rewrite classify_journal_for_lvl.
  destruct (level_of_is_level q) as [H | [H | [H | [H | H]]]];
    rewrite H; reflexivity.
Qed.

Lemma classify_journal_same_witness :
  map_quartil_to_level (VStr (lit "q2")) = Return (VStr (lit "B")) /\
  classify_journal (VStr (lit "q2")) (VStr (lit "q2")) =
    Return (if is_None (VStr (lit "B")) then VStr SEM_CLASSIFICACAO_JCR_SJR
            else VStr (lit "B")).
Proof.
  split; [reflexivity|].
  apply (proj2 (classify_journal_same (VStr (lit "q2")))). reflexivity.
Defined.

Lemma map_quartil_to_level_io_pure (world : Type) (q : value) (w : world) :
  map_quartil_to_level_io q w = (map_quartil_to_level q, w).
Proof.
  unfold map_quartil_to_level_io, map_quartil_to_level.
  destruct (is_None q); [reflexivity|].
  unfold io_bind, pure_step, py_str, bind, str_method.
  repeat match goal with |- context [if ?b then _ else _] => destruct b end;
    reflexivity.
Qed.

Lemma for_lvl_io_pure (world : Type) (jl sl : value) (rest : list pystr) (w : world) :
  for_lvl_io jl sl rest w = (Return (for_lvl jl sl rest), w).
Proof.
  induction rest as [|lvl rest IH]; simpl; [reflexivity|].
  destruct (py_eq_str jl lvl || py_eq_str sl lvl); [reflexivity | exact IH].
Qed.

Lemma classify_journal_io_pure (world : Type) (a b : value) (w : world) :
  classify_journal_io a b w = (classify_journal a b, w).
Proof.
  unfold classify_journal_io, classify_journal, io_bind.
  rewrite map_quartil_to_level_io_pure.
  destruct (map_quartil_to_level a) as [jl | e]; [|reflexivity].
  rewrite map_quartil_to_level_io_pure.
  destruct (map_quartil_to_level b) as [sl | e]; [|reflexivity].
  rewrite for_lvl_io_pure. cbn [bind].
  destruct (for_lvl jl sl ordem); reflexivity.
Qed.

(** C9: on every pair of values, [None], empty and malformed ones
    included (an int being one that [str()] converts), both functions
    return and raise nothing: the mapping gives a level and the
    classification a string. Run from any state of the process, each
    gives that same result and hands the state back as it was: the
    result is fixed by the arguments, and nothing is written. *)
Theorem classify_journal_total (a b : value) :
  (exists level, map_quartil_to_level a = Return level /\ is_level level) /\
  (forall e, map_quartil_to_level a <> Raise e) /\
  (forall e, classify_journal a b <> Raise e) /\
  (exists t, classify_journal a b = Return (VStr t)) /\
  (forall (world : Type) (w : world),
     map_quartil_to_level_io a w = (map_quartil_to_level a, w) /\
     classify_journal_io a b w = (classify_journal a b, w)).
Proof.
  split; [|split; [|split; [|split]]].
  - exists (level_of a). split.
    + apply map_quartil_to_level_returns.
    + apply level_of_is_level.
  - intros e. rewrite map_quartil_to_level_returns. discriminate.
  - intros e. rewrite classify_journal_tier_of. discriminate.
  - destruct (classify_journal_in_tokens a b) as [t [E _]].
    exists t. exact E.
  - intros world w. split.
    + apply map_quartil_to_level_io_pure.
    + apply classify_journal_io_pure.
Qed.

(** ** The loader *)

Local Open Scope nat_scope.

Lemma mapM_returns {A B : Type} (f : A -> outcome B) (g : A -> B) (l : list A) :
  (forall x, f x = Return (g x)) -> mapM f l = Return (map g l).
Proof.
  intros H. induction l as [|x l IH]; simpl; [reflexivity|].
  now rewrite H, IH.
Qed.

Lemma df_apply_rows_classify (df : DataFrame) :
  df_apply_rows
    (fun row => classify_journal (series_get row QUARTIL_JCR)
                                 (series_get row SJR_QUARTIL)) df
  = Return (backfill df).
Proof.
  unfold df_apply_rows, backfill.
  rewrite (mapM_returns _
             (fun row => tier_of (series_get row QUARTIL_JCR)
                                 (series_get row SJR_QUARTIL))).
  - now rewrite map_map.
  - intros row. apply classify_journal_tier_of.
Qed.

Lemma set_col_absent (name : pystr) (col : list value) (cs : list (pystr * list value)) :
  existsb (fun k => pystr_eqb k name) (map fst cs) = false ->
  set_col name col cs = cs ++ [(name, col)].
Proof.
  induction cs as [|[k c] cs IH]; simpl; [reflexivity|].
  intros H. apply orb_false_iff in H as [H1 H2].
  rewrite H1. now rewrite IH.
Qed.

Lemma get_col_absent (name : pystr) (cs : list (pystr * list value)) :
  existsb (fun k => pystr_eqb k name) (map fst cs) = false ->
  get_col name cs = None.
Proof.
  induction cs as [|[k c] cs IH]; simpl; [reflexivity|].
  intros H. apply orb_false_iff in H as [H1 H2].
  rewrite H1. now apply IH.
Qed.

Lemma get_col_app (name : pystr) (cs cs' : list (pystr * list value)) :
  get_col name (cs ++ cs') =
  match get_col name cs with
  | Some c => Some c
  | None => get_col name cs'
  end.
Proof.
  induction cs as [|[k c] cs IH]; simpl; [reflexivity|].
  destruct (pystr_eqb k name); [reflexivity | exact IH].
Qed.


Lemma row_at_labels (df : DataFrame) (i : nat) :
  map fst (row_at df i) = columns df.
Proof. unfold row_at, columns. rewrite map_map. reflexivity. Qed.

(** [row.get] on a column that the frame lacks gives [None]. *)
Lemma series_get_missing (df : DataFrame) (i : nat) (key : pystr) :
  in_columns key df = false -> series_get (row_at df i) key = VNone.
Proof.
  unfold in_columns. rewrite <- (row_at_labels df i).
  induction (row_at df i) as [|[k v] r IH]; simpl; [reflexivity|].
  intros H. apply orb_false_iff in H as [H1 H2].
  rewrite H1. now apply IH.
Qed.

(** The loader on a frame without classification: the computed column
    goes after the columns of the source. *)
Lemma load_data_absent (df : DataFrame) :
  in_columns CLASSIFICACAO df = false ->
  load_data (Return df) =
  Return {| nrows := nrows df; cols := cols df ++ [(CLASSIFICACAO, backfill df)] |}.
Proof.
  intros H. unfold load_data. cbn [bind]. rewrite H. cbn [negb].
  rewrite df_apply_rows_classify. cbn [bind].
  unfold df_setitem. now rewrite set_col_absent.
Qed.

Lemma backfill_length (df : DataFrame) : List.length (backfill df) = nrows df.
Proof. unfold backfill. now rewrite length_map, length_seq. Qed.





(** C3, as stated, fails: a frame with neither quartile column nor
    classification is loaded without any exception. *)
Lemma load_data_no_schema_error :
  in_columns QUARTIL_JCR frame_titles = false /\
  in_columns SJR_QUARTIL frame_titles = false /\
  in_columns CLASSIFICACAO frame_titles = false /\
  ~ (exists e, load_data (Return frame_titles) = Raise e).
Proof.
  repeat split; try reflexivity.
  intros [e H]. rewrite load_data_absent in H by reflexivity. discriminate.
Qed.

(** C3 (amended): when the two quartile columns and the classification
    are all missing, [load_data] raises nothing and returns a table: the
    rows and columns of the source, cell for cell, and after them one
    more column, the classification, with one cell per row, each the
    sentinel. *)
Theorem load_data_without_quartiles_returns (df : DataFrame) :
  in_columns QUARTIL_JCR df = false ->
  in_columns SJR_QUARTIL df = false ->
  in_columns CLASSIFICACAO df = false ->
  exists df' tiers,
    load_data (Return df) = Return df' /\
    nrows df' = nrows df /\
    cols df' = cols df ++ [(CLASSIFICACAO, tiers)] /\
    columns df' = columns df ++ [CLASSIFICACAO] /\
    List.length tiers = nrows df /\
    Forall (fun v => v = VStr SEM_CLASSIFICACAO_JCR_SJR) tiers.
Proof.
  intros J S H.
  exists {| nrows := nrows df; cols := cols df ++ [(CLASSIFICACAO, backfill df)] |},
         (backfill df).
  split; [apply (load_data_absent df H)|].
  split; [reflexivity|]. split; [reflexivity|].
  split; [unfold columns; cbn [cols]; now rewrite map_app|].
  split; [apply backfill_length|].
  unfold backfill. apply Forall_forall. intros v Hv.
  apply in_map_iff in Hv as [i [<- _]].
  now rewrite !series_get_missing.
Qed.

Lemma load_data_without_quartiles_returns_witness :
  (in_columns QUARTIL_JCR frame_titles = false /\
   in_columns SJR_QUARTIL frame_titles = false /\
   in_columns CLASSIFICACAO frame_titles = false) /\
  exists df' tiers,
    load_data (Return frame_titles) = Return df' /\
    nrows df' = nrows frame_titles /\
    cols df' = cols frame_titles ++ [(CLASSIFICACAO, tiers)] /\
    columns df' = columns frame_titles ++ [CLASSIFICACAO] /\
    List.length tiers = nrows frame_titles /\
    Forall (fun v => v = VStr SEM_CLASSIFICACAO_JCR_SJR) tiers.
Proof.
  split; [repeat split|].
  apply (load_data_without_quartiles_returns frame_titles); reflexivity.
Defined.

(** C4: a frame that has the classification column is returned as it
    was read: no cell is recomputed or checked. *)
Theorem load_data_keeps_classification (df : DataFrame) :
  in_columns CLASSIFICACAO df = true ->
  load_data (Return df) = Return df.
Proof.
  intros H. unfold load_data. cbn [bind]. now rewrite H.
Qed.

(** On [frame_stale] the first row keeps F although its quartiles give MB. *)
Lemma load_data_keeps_classification_witness :
  in_columns CLASSIFICACAO frame_stale = true /\
  load_data (Return frame_stale) = Return frame_stale /\
  series_get (row_at frame_stale 0) CLASSIFICACAO = VStr (lit "F") /\
  classify_journal (series_get (row_at frame_stale 0) QUARTIL_JCR)
                   (series_get (row_at frame_stale 0) SJR_QUARTIL)
  = Return (VStr (lit "MB")).
Proof.
  split; [reflexivity|].
  split; [apply (load_data_keeps_classification frame_stale); reflexivity|].
  split; reflexivity.
Defined.



(** C6, as stated, fails: a classification column of the source is
    returned as it is, whatever it holds; here the text A1. *)
Lemma stale_classification_not_token :
  load_data (Return frame_stale) = Return frame_stale /\
  column CLASSIFICACAO frame_stale = Some [VStr (lit "F"); VStr (lit "A1")] /\
  ~ is_tier_token (VStr (lit "A1")).
Proof.
  split; [reflexivity|]. split; [reflexivity|].
  intros [t [E H]]. injection E as <-.
  vm_compute in H. intuition discriminate.
Qed.

(** C6 (amended): every value [classify_journal] returns is one of the
    five tokens MB, B, R, F, SEM_CLASSIFICACAO_JCR_SJR (and it returns
    one on every pair of values), and so is every value of the
    classification column of the table [load_data] returns for a source
    that has no such column. *)
Theorem tier_values_are_tokens :
  (forall a b v, classify_journal a b = Return v -> is_tier_token v) /\
  (forall a b, exists v, classify_journal a b = Return v /\ is_tier_token v) /\
  (forall df df' c,
     in_columns CLASSIFICACAO df = false ->
     load_data (Return df) = Return df' ->
     column CLASSIFICACAO df' = Some c ->
     Forall is_tier_token c).
Proof.
  assert (T : forall a b, is_tier_token (tier_of a b)).
  { intros a b. unfold tier_of.
    destruct (classify_journal_in_tokens a b) as [t [-> Ht]]. now exists t. }
  split; [|split].
  - intros a b v E. rewrite classify_journal_tier_of in E. injection E as <-.
    apply T.
  - intros a b. exists (tier_of a b). split; [apply classify_journal_tier_of | apply T].
  - intros df df' c H L C.
    rewrite (load_data_absent df H) in L. injection L as <-.
    unfold column in C. cbn [cols] in C.
    rewrite get_col_app, (get_col_absent _ _ H) in C.
    cbn [get_col] in C. rewrite pystr_eqb_refl in C. injection C as <-.
    unfold backfill. apply Forall_forall. intros v Hv.
    apply in_map_iff in Hv as [i [<- _]]. apply T.
Qed.

Lemma tier_values_are_tokens_witness :
  (classify_journal (VStr (lit "Q4")) VNaN = Return (VStr (lit "F")) /\
   is_tier_token (VStr (lit "F"))) /\
  in_columns CLASSIFICACAO frame_quartiles = false /\
  load_data (Return frame_quartiles) =
    Return {| nrows := 2;
              cols := cols frame_quartiles ++
                      [(CLASSIFICACAO,
                        [VStr (lit "MB"); VStr SEM_CLASSIFICACAO_JCR_SJR])] |} /\
  Forall is_tier_token [VStr (lit "MB"); VStr SEM_CLASSIFICACAO_JCR_SJR].
Proof.
  split.
  { split; [reflexivity|].
    apply (proj1 tier_values_are_tokens (VStr (lit "Q4")) VNaN). reflexivity. }
  split; [reflexivity|]. split; [reflexivity|].
  apply (proj2 (proj2 tier_values_are_tokens) frame_quartiles
           {| nrows := 2;
              cols := cols frame_quartiles ++
                      [(CLASSIFICACAO,
                        [VStr (lit "MB"); VStr SEM_CLASSIFICACAO_JCR_SJR])] |});
    reflexivity.
Defined.

(** C10: a source without the classification column is always loaded;
    when the two quartile columns are missing too, [row.get] gives
    [None] for both fields and every row gets the sentinel. *)
Theorem load_data_missing_quartiles_sentinel (df : DataFrame) :
  in_columns CLASSIFICACAO df = false ->
  (exists df', load_data (Return df) = Return df') /\
  (forall e, load_data (Return df) <> Raise e) /\
  (in_columns QUARTIL_JCR df = false ->
   in_columns SJR_QUARTIL df = false ->
   (forall i, series_get (row_at df i) QUARTIL_JCR = VNone /\
              series_get (row_at df i) SJR_QUARTIL = VNone) /\
   load_data (Return df) =
   Return {| nrows := nrows df;
             cols := cols df ++
                     [(CLASSIFICACAO,
                       repeat (VStr SEM_CLASSIFICACAO_JCR_SJR) (nrows df))] |}).
Proof.
  intros H. rewrite (load_data_absent df H).
  split; [eexists; reflexivity|]. split; [discriminate|].
  intros J S.
  split; [intros i; split; now apply series_get_missing|].
  assert (B : backfill df = repeat (VStr SEM_CLASSIFICACAO_JCR_SJR) (nrows df)).
  { unfold backfill.
    rewrite <- (length_seq (nrows df) 0) at 2. rewrite <- map_const.
    apply map_ext. intros i.
    now rewrite !series_get_missing. }
  now rewrite B.
Qed.

Lemma load_data_missing_quartiles_sentinel_witness :
  (in_columns CLASSIFICACAO frame_titles = false /\
   in_columns QUARTIL_JCR frame_titles = false /\
   in_columns SJR_QUARTIL frame_titles = false) /\
  load_data (Return frame_titles) =
  Return {| nrows := 2;
            cols := cols frame_titles ++
                    [(CLASSIFICACAO,
                      [VStr SEM_CLASSIFICACAO_JCR_SJR;
                       VStr SEM_CLASSIFICACAO_JCR_SJR])] |}.
Proof.
  split; [repeat split|].
  apply (load_data_missing_quartiles_sentinel frame_titles); reflexivity.
Defined.

(** * Further properties *)

(** ** Classification rules *)

Local Open Scope N_scope.

Lemma lstrip_only_spaces (r : pystr) : spaces r -> lstrip r = [].
Proof.
  intros H. rewrite <- (app_nil_r r). now rewrite lstrip_spaces.
Qed.

Lemma rstrip_spaces (s r : pystr) : spaces r -> rstrip (s ++ r) = rstrip s.
Proof.
  intros H. unfold rstrip. rewrite rev_app_distr.
  now rewrite (lstrip_spaces (rev r) _ (spaces_rev r H)).
Qed.

Lemma lstrip_head (s : pystr) :
  lstrip s = [] \/ exists c t, lstrip s = c :: t /\ is_space c = false.
Proof.
  induction s as [|c s IH]; simpl; [now left|].
  destruct (is_space c) eqn:E; [exact IH|].
  right. now exists c, s.
Qed.

(** Whitespace around a text does not change what [strip] leaves. *)
Lemma strip_padding (l s r : pystr) :
  spaces l -> spaces r -> strip (l ++ s ++ r) = strip s.
Proof.
  intros Hl Hr. unfold strip. rewrite (lstrip_spaces l _ Hl).
  destruct (lstrip_split s) as [l0 [Es H0]].
  destruct (lstrip_head s) as [E | [c [t [E Hc]]]].
  - rewrite E in *. rewrite app_nil_r in Es. subst l0.
    rewrite (lstrip_spaces s _ H0).
    now rewrite (lstrip_only_spaces r Hr).
  - rewrite Es at 1. rewrite <- app_assoc, (lstrip_spaces l0 _ H0).
    rewrite E. simpl. rewrite Hc.
    change (c :: t ++ r) with ((c :: t) ++ r).
    now apply rstrip_spaces.
Qed.

Lemma level_of_padding (l s r : pystr) :
  spaces l -> spaces r -> level_of (VStr (l ++ s ++ r)) = level_of (VStr s).
Proof.
  intros Hl Hr. rewrite !level_of_normalize. unfold normalize. simpl str_of.
  now rewrite strip_padding.
Qed.

(** X1: whitespace before and after the text of either quartile changes
    neither its level nor the class of the journal. *)
Theorem classify_journal_padding (l1 s1 r1 l2 s2 r2 : pystr) :
  spaces l1 -> spaces r1 -> spaces l2 -> spaces r2 ->
  map_quartil_to_level (VStr (l1 ++ s1 ++ r1)) = map_quartil_to_level (VStr s1) /\
  classify_journal (VStr (l1 ++ s1 ++ r1)) (VStr (l2 ++ s2 ++ r2)) =
  classify_journal (VStr s1) (VStr s2).
Proof.
  intros H1 H2 H3 H4.
  rewrite !map_quartil_to_level_returns, !classify_journal_for_lvl.
  now rewrite !level_of_padding.
Qed.

Lemma classify_journal_padding_witness :
  (spaces [9; 32] /\ spaces [160] /\ spaces [] /\ spaces [10]) /\
  map_quartil_to_level (VStr ([9; 32] ++ lit "q3" ++ [160])) =
    map_quartil_to_level (VStr (lit "q3")) /\
  classify_journal (VStr ([9; 32] ++ lit "q3" ++ [160])) (VStr ([] ++ lit "Q2" ++ [10])) =
  classify_journal (VStr (lit "q3")) (VStr (lit "Q2")).
Proof.
  assert (S1 : spaces [9; 32]) by (repeat constructor).
  assert (S2 : spaces [160]) by (repeat constructor).
  assert (S3 : spaces []) by constructor.
  assert (S4 : spaces [10]) by (repeat constructor).
  split; [repeat split; assumption|].
  exact (classify_journal_padding [9; 32] (lit "q3") [160] [] (lit "Q2") [10] S1 S2 S3 S4).
Defined.

(** X2: a source whose value has no level leaves the class to the other
    source, and a source in Q1 settles the class as MB whatever the
    other one holds. *)
Theorem classify_journal_neutral_and_top (a b : value) :
  (map_quartil_to_level b = Return VNone ->
   classify_journal a b = classify_journal a a /\
   classify_journal b a = classify_journal a a) /\
  (map_quartil_to_level a = Return (VStr (lit "MB")) ->
   classify_journal a b = Return (VStr (lit "MB")) /\
   classify_journal b a = Return (VStr (lit "MB"))).
Proof.
  rewrite !map_quartil_to_level_returns, !classify_journal_for_lvl.
  split; intros H; injection H as H;
    destruct (level_of_is_level a) as [Ha | [Ha | [Ha | [Ha | Ha]]]];
    destruct (level_of_is_level b) as [Hb | [Hb | [Hb | [Hb | Hb]]]];
    rewrite ?Ha, ?Hb in *; try discriminate; split; reflexivity.
Qed.

Lemma classify_journal_neutral_and_top_witness :
  (classify_journal (VStr (lit "Q3")) VNaN = classify_journal (VStr (lit "Q3")) (VStr (lit "Q3")) /\
   classify_journal VNaN (VStr (lit "Q3")) = classify_journal (VStr (lit "Q3")) (VStr (lit "Q3"))) /\
  (classify_journal (VStr (lit "q1")) (VStr (lit "Q4")) = Return (VStr (lit "MB")) /\
   classify_journal (VStr (lit "Q4")) (VStr (lit "q1")) = Return (VStr (lit "MB"))).
Proof.
  split.
  - apply (proj1 (classify_journal_neutral_and_top (VStr (lit "Q3")) VNaN)).
    reflexivity.
  - apply (proj2 (classify_journal_neutral_and_top (VStr (lit "q1")) (VStr (lit "Q4")))).
    reflexivity.
Defined.

(** X3: the manual form gives what [classify_journal] gives on the two
    selections as they are: replacing an empty selection, or ["-"] for
    SJR, by [None] changes nothing, and neither does the fact that only
    the SJR side treats ["-"]. *)
Theorem classe_manual_is_classify (jcr_manual sjr_manual : pystr) :
  classe_manual jcr_manual sjr_manual =
    classify_journal (VStr jcr_manual) (VStr sjr_manual) /\
  classe_manual jcr_manual sjr_manual = classe_manual sjr_manual jcr_manual.
Proof.
  assert (R : forall j s, classe_manual j s = classify_journal (VStr j) (VStr s)).
  { intros j s. unfold classe_manual. rewrite !classify_journal_for_lvl.
    assert (J : level_of (if negb (pystr_eqb j (lit "")) then VStr j else VNone)
                = level_of (VStr j)).
    { destruct (pystr_eqb j (lit "")) eqn:E; [|reflexivity].
      apply pystr_eqb_eq in E. subst j. reflexivity. }
    assert (S : level_of (if negb (existsb (pystr_eqb s) [lit ""; lit "-"])
                          then VStr s else VNone)
                = level_of (VStr s)).
    { cbn [existsb].
      destruct (pystr_eqb s (lit "")) eqn:E1.
      - apply pystr_eqb_eq in E1. subst s. reflexivity.
      - destruct (pystr_eqb s (lit "-")) eqn:E2; [|reflexivity].
        apply pystr_eqb_eq in E2. subst s. reflexivity. }
    cbv zeta. now rewrite J, S. }
  split; [apply R|].
  rewrite !R, !classify_journal_for_lvl.
  by_levels (VStr jcr_manual) (VStr sjr_manual); reflexivity.
Qed.

(** ** The loader *)

Local Open Scope nat_scope.

Lemma in_columns_loaded (df : DataFrame) (col : list value) (name : pystr) :
  in_columns name {| nrows := nrows df; cols := cols df ++ [(CLASSIFICACAO, col)] |} =
  in_columns name df || pystr_eqb CLASSIFICACAO name.
Proof.
  unfold in_columns, columns. cbn [cols].
  rewrite map_app, existsb_app. simpl. now rewrite orb_false_r.
Qed.

Lemma get_col_None (name : pystr) (cs : list (pystr * list value)) :
  get_col name cs = None <-> existsb (fun k => pystr_eqb k name) (map fst cs) = false.
Proof.
  induction cs as [|[k c] cs IH]; simpl; [tauto|].
  destruct (pystr_eqb k name); simpl; [split; discriminate | exact IH].
Qed.

Lemma load_data_cases (df : DataFrame) :
  (in_columns CLASSIFICACAO df = true /\ load_data (Return df) = Return df) \/
  (in_columns CLASSIFICACAO df = false /\
   load_data (Return df) =
   Return {| nrows := nrows df; cols := cols df ++ [(CLASSIFICACAO, backfill df)] |}).
Proof.
  destruct (in_columns CLASSIFICACAO df) eqn:E.
  - left. split; [reflexivity|]. unfold load_data. cbn [bind]. now rewrite E.
  - right. split; [reflexivity|]. now apply load_data_absent.
Qed.

(** X4: whatever frame is read, [load_data] returns a frame that has the
    classification column, with as many rows as the source and with
    every other column as it was read. *)
Theorem load_data_guarantees_column (df : DataFrame) :
  exists df',
    load_data (Return df) = Return df' /\
    in_columns CLASSIFICACAO df' = true /\
    nrows df' = nrows df /\
    forall name, name <> CLASSIFICACAO -> column name df' = column name df.
Proof.
  destruct (load_data_cases df) as [[E L] | [E L]]; rewrite L; eexists;
    (split; [reflexivity|]).
  - auto.
  - split; [rewrite in_columns_loaded, pystr_eqb_refl; apply orb_true_r|].
    split; [reflexivity|].
    intros name Hn. unfold column. cbn [cols]. rewrite get_col_app.
    destruct (get_col name (cols df)); [reflexivity|].
    cbn [get_col].
    destruct (pystr_eqb CLASSIFICACAO name) eqn:K; [|reflexivity].
    apply pystr_eqb_eq in K. congruence.
Qed.

(** X5: [load_data] raises exactly when reading the workbook raises, and
    then the same exception. *)
Theorem load_data_raises_iff (read_excel : outcome DataFrame) (e : exn) :
  load_data read_excel = Raise e <-> read_excel = Raise e.
Proof.
  destruct read_excel as [df | e'].
  - destruct (load_data_cases df) as [[_ L] | [_ L]]; rewrite L;
      split; discriminate.
  - reflexivity.
Qed.

(** X6: loading what [load_data] returned changes nothing: the column it
    added is then found and kept. *)
Theorem load_data_idempotent (read_excel : outcome DataFrame) :
  load_data (load_data read_excel) = load_data read_excel.
Proof.
  destruct read_excel as [df | e]; [|reflexivity].
  destruct (load_data_cases df) as [[E L] | [E L]]; rewrite L.
  - exact L.
  - unfold load_data at 1. cbn [bind].
    now rewrite in_columns_loaded, pystr_eqb_refl, orb_true_r.
Qed.

(** X7: when every column of the source has one cell per row, so has
    every column of the frame [load_data] returns. *)
Theorem load_data_frame_ok (df df' : DataFrame) :
  frame_ok df -> load_data (Return df) = Return df' -> frame_ok df'.
Proof.
  intros W L.
  destruct (load_data_cases df) as [[_ L'] | [_ L']]; rewrite L' in L;
    injection L as <-; [exact W|].
  unfold frame_ok in *. cbn [cols nrows].
  apply Forall_app. split; [exact W|].
  constructor; [apply backfill_length | constructor].
Qed.

Lemma load_data_frame_ok_witness :
  frame_ok frame_quartiles /\
  frame_ok {| nrows := 2;
              cols := cols frame_quartiles ++
                      [(CLASSIFICACAO,
                        [VStr (lit "MB"); VStr SEM_CLASSIFICACAO_JCR_SJR])] |}.
Proof.
  assert (W : frame_ok frame_quartiles) by (repeat constructor).
  split; [exact W|].
  exact (load_data_frame_ok frame_quartiles _ W eq_refl).
Defined.

(** X8: a source without a quartile column is loaded, but the options of
    that quartile's filter cannot be computed from the loaded frame:
    [df[name]] is a [KeyError]. *)
Theorem quartil_opts_key_error (name : pystr) (df : DataFrame) :
  name = QUARTIL_JCR \/ name = SJR_QUARTIL ->
  in_columns name df = false ->
  exists df',
    load_data (Return df) = Return df' /\ quartil_opts name df' = None.
Proof.
  intros Hn H.
  assert (K : pystr_eqb CLASSIFICACAO name = false)
    by (destruct Hn as [-> | ->]; reflexivity).
  destruct (load_data_cases df) as [[_ L] | [_ L]]; rewrite L; eexists;
    (split; [reflexivity|]); unfold quartil_opts, column.
  - now rewrite (get_col_absent name (cols df) H).
  - cbn [cols]. rewrite get_col_app, (get_col_absent name (cols df) H).
    cbn [get_col]. now rewrite K.
Qed.

Lemma quartil_opts_key_error_witness :
  in_columns QUARTIL_JCR frame_titles = false /\
  exists df',
    load_data (Return frame_titles) = Return df' /\ jcr_opts df' = None.
Proof.
  split; [reflexivity|].
  apply (quartil_opts_key_error QUARTIL_JCR frame_titles); [now left | reflexivity].
Defined.

(** ** The table shown *)

Lemma existsb_pystr_In (c : pystr) (l : list pystr) :
  existsb (pystr_eqb c) l = true <-> In c l.
Proof.
  rewrite existsb_exists. split.
  - intros [x [Hx E]]. apply pystr_eqb_eq in E. now subst.
  - intros H. exists c. split; [exact H | apply pystr_eqb_refl].
Qed.

(** With candidates that are all different, the loop is a filter. *)
Lemma cols_to_show_loop_filter (df : DataFrame) (cands acc : list pystr) :
  NoDup cands ->
  (forall c, In c cands -> ~ In c acc) ->
  cols_to_show_loop df cands acc = acc ++ filter (fun c => in_columns c df) cands.
Proof.
  revert acc. induction cands as [|c rest IH]; intros acc N D; simpl.
  - now rewrite app_nil_r.
  - inversion N as [|? ? Hc Nrest]; subst.
    assert (E : existsb (pystr_eqb c) acc = false).
    { destruct (existsb (pystr_eqb c) acc) eqn:E; [|reflexivity].
      apply existsb_pystr_In in E. exfalso. apply (D c); [now left | exact E]. }
    rewrite E. cbn [negb]. rewrite andb_true_r.
    destruct (in_columns c df).
    + rewrite IH; [now rewrite <- app_assoc | exact Nrest |].
      intros c' Hc' Hin. apply in_app_or in Hin as [Hin | [-> | []]].
      * apply (D c'); [now right | exact Hin].
      * contradiction.
    + apply IH; [exact Nrest|]. intros c' Hc'. apply D. now right.
Qed.

Lemma show_candidates_NoDup : NoDup show_candidates.
Proof.
  cbv. repeat (constructor; [simpl; intuition discriminate|]). constructor.
Qed.

Lemma getitem_cols_present (names : list pystr) (cs : list (pystr * list value)) :
  (forall n, In n names -> existsb (fun k => pystr_eqb k n) (map fst cs) = true) ->
  exists cs',
    getitem_cols names cs = Some cs' /\
    map fst cs' = names /\
    forall n, In n names -> get_col n cs' = get_col n cs.
Proof.
  induction names as [|n rest IH]; intros H; simpl.
  - exists []. repeat split. intros n [].
  - destruct IH as [cs' [E [F G]]]; [intros m Hm; apply H; now right|].
    destruct (get_col n cs) as [c|] eqn:C.
    + rewrite E. exists ((n, c) :: cs'). split; [reflexivity|].
      split; [simpl; now rewrite F|].
      intros m Hm. cbn [get_col].
      destruct (pystr_eqb n m) eqn:K.
      * apply pystr_eqb_eq in K. subst m. now rewrite C.
      * destruct Hm as [-> | Hm]; [now rewrite pystr_eqb_refl in K | now apply G].
    + apply get_col_None in C. rewrite H in C; [discriminate | now left].
Qed.

(** X9: the columns shown are the candidates that the frame has, in the
    order of the candidate list and each once; selecting them from the
    frame therefore raises no [KeyError], and gives those columns with
    their cells. *)
Theorem cols_to_show_are_columns (df_view : DataFrame) :
  cols_to_show df_view = filter (fun c => in_columns c df_view) show_candidates /\
  NoDup (cols_to_show df_view) /\
  (forall c, In c (cols_to_show df_view) <->
             In c show_candidates /\ in_columns c df_view = true) /\
  exists shown,
    df_getitem_cols (cols_to_show df_view) df_view = Some shown /\
    columns shown = cols_to_show df_view /\
    nrows shown = nrows df_view /\
    forall c, In c (cols_to_show df_view) -> column c shown = column c df_view.
Proof.
  assert (E : cols_to_show df_view =
              filter (fun c => in_columns c df_view) show_candidates).
  { unfold cols_to_show.
    rewrite cols_to_show_loop_filter; [reflexivity | apply show_candidates_NoDup|].
    intros c _ []. }
  rewrite E.
  split; [reflexivity|].
  split; [apply NoDup_filter, show_candidates_NoDup|].
  split; [intros c; apply filter_In|].
  destruct (getitem_cols_present
              (filter (fun c => in_columns c df_view) show_candidates)
              (cols df_view)) as [cs' [G [F K]]].
  { intros n Hn. apply filter_In in Hn as [_ Hn]. exact Hn. }
  unfold df_getitem_cols. rewrite G. eexists. split; [reflexivity|].
  split; [exact F|]. split; [reflexivity|]. exact K.
Qed.

(** ** Filters *)

Lemma select_rows_self {A : Type} (f : A -> bool) (l : list A) :
  select_rows (map f l) l = filter f l.
Proof.
  unfold select_rows. induction l as [|x l IH]; simpl; [reflexivity|].
  destruct (f x); simpl; now rewrite IH.
Qed.

Lemma select_rows_all {A : Type} (mask : list bool) (l : list A) :
  List.length mask = List.length l ->
  forallb (fun b => b) mask = true ->
  select_rows mask l = l.
Proof.
  unfold select_rows. revert l.
  induction mask as [|b mask IH]; intros [|x l] L T; simpl in *;
    try discriminate; [reflexivity|].
  apply andb_true_iff in T as [-> T]. simpl.
  rewrite IH; [reflexivity | now injection L | exact T].
Qed.

Lemma select_rows_length {A B : Type} (mask : list bool) (l : list A) (l' : list B) :
  List.length l = List.length l' ->
  List.length (select_rows mask l) = List.length (select_rows mask l').
Proof.
  unfold select_rows. revert l l'.
  induction mask as [|b mask IH]; intros [|x l] [|y l'] L; simpl in *;
    try discriminate; try reflexivity.
  injection L as L. destruct b; simpl; [f_equal|]; now apply IH.
Qed.

Lemma select_rows_le {A : Type} (mask : list bool) (l : list A) :
  List.length (select_rows mask l) <= List.length l.
Proof.
  unfold select_rows. revert l.
  induction mask as [|b mask IH]; intros [|x l]; simpl; try lia.
  specialize (IH l). destruct b; simpl; lia.
Qed.

Lemma get_col_mask (name : pystr) (mask : list bool) (cs : list (pystr * list value)) :
  get_col name (map (fun c => (fst c, select_rows mask (snd c))) cs) =
  option_map (select_rows mask) (get_col name cs).
Proof.
  induction cs as [|[k c] cs IH]; simpl; [reflexivity|].
  destruct (pystr_eqb k name); [reflexivity | exact IH].
Qed.

Lemma df_mask_shape (mask : list bool) (df : DataFrame) :
  columns (df_mask mask df) = columns df /\
  nrows (df_mask mask df) <= nrows df /\
  (frame_ok df -> frame_ok (df_mask mask df)).
Proof.
  split; [|split].
  - unfold columns, df_mask. cbn [cols]. rewrite map_map. reflexivity.
  - unfold df_mask. cbn [nrows].
    rewrite <- (length_seq (nrows df) 0) at 2. apply select_rows_le.
  - unfold frame_ok, df_mask. cbn [cols nrows]. intros W.
    apply Forall_map. apply Forall_forall. intros c Hc. cbn [snd].
    rewrite Forall_forall in W. specialize (W c Hc).
    apply select_rows_length. now rewrite length_seq.
Qed.

Lemma df_mask_all (mask : list bool) (df : DataFrame) :
  frame_ok df ->
  List.length mask = nrows df ->
  forallb (fun b => b) mask = true ->
  df_mask mask df = df.
Proof.
  intros W L T. destruct df as [n cs]. unfold df_mask, frame_ok in *.
  cbn [nrows cols] in *. f_equal.
  - rewrite select_rows_all; [apply length_seq | now rewrite length_seq | exact T].
  - induction cs as [|[k c] cs IH]; simpl; [reflexivity|].
    inversion W as [|? ? Hc Wcs]; subst. cbn [snd] in Hc.
    rewrite select_rows_all by (congruence || assumption).
    now rewrite IH.
Qed.

(** X10: a filter never raises on a frame that has its column; it keeps
    the columns of the frame and adds no row, and a frame with one cell
    per row in every column stays so. With an empty selection it
    returns the frame as it is. *)
Theorem filters_keep_shape (df : DataFrame) (classe_sel quartil_sel : list pystr)
  (col : pystr) :
  in_columns CLASSIFICACAO df = true ->
  in_columns col df = true ->
  (exists df', filter_classe classe_sel df = Some df' /\
               columns df' = columns df /\ nrows df' <= nrows df /\
               (frame_ok df -> frame_ok df') /\ (classe_sel = [] -> df' = df)) /\
  (exists df', filter_quartil col quartil_sel df = Some df' /\
               columns df' = columns df /\ nrows df' <= nrows df /\
               (frame_ok df -> frame_ok df') /\ (quartil_sel = [] -> df' = df)).
Proof.
  intros H1 H2.
  assert (P : forall n, in_columns n df = true -> exists c, column n df = Some c).
  { intros n Hn. unfold column. destruct (get_col n (cols df)) as [c|] eqn:C;
      [now exists c|]. apply get_col_None in C. unfold in_columns, columns in Hn.
    congruence. }
  split.
  - destruct (P _ H1) as [c C]. unfold filter_classe. rewrite C.
    destruct classe_sel as [|s sel'].
    + exists df. repeat split; auto.
    + eexists. split; [reflexivity|].
      destruct (df_mask_shape (isin (s :: sel') c) df) as [A [B W]].
      repeat split; auto. discriminate.
  - destruct (P _ H2) as [c C]. unfold filter_quartil. rewrite C.
    destruct quartil_sel as [|s sel'].
    + exists df. repeat split; auto.
    + eexists. split; [reflexivity|].
      destruct (df_mask_shape (isin (s :: sel') (map VStr (astype_str c))) df)
        as [A [B W]].
      repeat split; auto. discriminate.
Qed.

Lemma filters_keep_shape_witness :
  (in_columns CLASSIFICACAO frame_mixed = true /\
   in_columns QUARTIL_JCR frame_mixed = true) /\
  (exists df', filter_classe [lit "MB"] frame_mixed = Some df' /\
               columns df' = columns frame_mixed /\ nrows df' <= nrows frame_mixed /\
               (frame_ok frame_mixed -> frame_ok df') /\
               ([lit "MB"] = [] -> df' = frame_mixed)) /\
  (exists df', filter_quartil QUARTIL_JCR [lit "Q2"] frame_mixed = Some df' /\
               columns df' = columns frame_mixed /\ nrows df' <= nrows frame_mixed /\
               (frame_ok frame_mixed -> frame_ok df') /\
               ([lit "Q2"] = [] -> df' = frame_mixed)).
Proof.
  split; [split; reflexivity|].
  apply (filters_keep_shape frame_mixed [lit "MB"] [lit "Q2"] QUARTIL_JCR);
    reflexivity.
Defined.

(** Rows under a mask *)

Lemma select_rows_map {A B : Type} (f : A -> B) (mask : list bool) (l : list A) :
  select_rows mask (map f l) = map f (select_rows mask l).
Proof.
  unfold select_rows. revert l.
  induction mask as [|b mask IH]; intros [|x l]; simpl; try reflexivity.
  destruct b; simpl; now rewrite IH.
Qed.

Lemma list_as_nth {A : Type} (l : list A) (d : A) :
  l = map (fun i => nth i l d) (seq 0 (List.length l)).
Proof.
  induction l as [|x l IH]; simpl; [reflexivity|].
  f_equal. rewrite <- seq_shift, map_map. exact IH.
Qed.

(** The rows of [df[mask]] are the rows of [df] under the mask. *)
Lemma rows_df_mask (mask : list bool) (df : DataFrame) :
  frame_ok df -> rows (df_mask mask df) = select_rows mask (rows df).
Proof.
  intros W. unfold rows. rewrite select_rows_map.
  set (S := select_rows mask (seq 0 (nrows df))).
  assert (E : map (row_at df) S =
              map (fun j => row_at df (nth j S 0)) (seq 0 (List.length S))).
  { rewrite <- (map_map (fun j => nth j S 0) (row_at df)).
    now rewrite <- list_as_nth. }
  rewrite E. change (nrows (df_mask mask df)) with (List.length S).
  apply map_ext_in. intros j Hj. apply in_seq in Hj.
  unfold row_at, df_mask. cbn [cols]. rewrite map_map.
  apply map_ext_in. intros c Hc. cbn [fst snd]. f_equal.
  unfold frame_ok in W. rewrite Forall_forall in W. specialize (W c Hc).
  assert (C : select_rows mask (snd c) = map (fun i => nth i (snd c) VNaN) S).
  { unfold S. rewrite <- select_rows_map, <- W. now rewrite <- list_as_nth. }
  rewrite C.
  rewrite (nth_indep _ VNaN (nth 0 (snd c) VNaN)) by (rewrite length_map; lia).
  now rewrite (map_nth (fun i => nth i (snd c) VNaN) S 0 j).
Qed.

(** A column read row by row. *)
Lemma column_by_rows (name : pystr) (df : DataFrame) (col : list value) :
  frame_ok df -> column name df = Some col ->
  col = map (fun row => series_get row name) (rows df).
Proof.
  intros W C. unfold rows. rewrite map_map.
  assert (L : List.length col = nrows df /\
              forall i, series_get (row_at df i) name = nth i col VNaN).
  { unfold column in C. unfold frame_ok in W. unfold row_at.
    induction (cols df) as [|[k c] cs IH]; simpl in *; [discriminate|].
    inversion W as [|? ? Hc Wcs]; subst.
    destruct (pystr_eqb k name).
    - injection C as <-. split; [exact Hc | reflexivity].
    - now apply IH. }
  destruct L as [L G].
  rewrite <- L.
  transitivity (map (fun i => nth i col VNaN) (seq 0 (List.length col)));
    [apply list_as_nth|].
  apply map_ext. intros i. now rewrite G.
Qed.

Lemma column_df_mask (name : pystr) (mask : list bool) (df : DataFrame)
  (col : list value) :
  column name df = Some col ->
  column name (df_mask mask df) = Some (select_rows mask col).
Proof.
  unfold column, df_mask. cbn [cols]. rewrite get_col_mask. now intros ->.
Qed.

(** One filter step on the rows. *)
Lemma filter_classe_rows (classe_sel : list pystr) (df : DataFrame) (col : list value) :
  frame_ok df -> column CLASSIFICACAO df = Some col ->
  exists df',
    filter_classe classe_sel df = Some df' /\ frame_ok df' /\
    (forall n c, column n df = Some c -> exists c', column n df' = Some c') /\
    columns df' = columns df /\
    rows df' =
    filter (fun row => classe_selected classe_sel (series_get row CLASSIFICACAO))
           (rows df).
Proof.
  intros W C. unfold filter_classe. rewrite C.
  destruct classe_sel as [|s sel'].
  - exists df. split; [reflexivity|]. split; [exact W|]. split; [eauto|].
    split; [reflexivity|]. cbn [classe_selected]. symmetry. apply forallb_filter_id.
    apply forallb_forall. reflexivity.
  - eexists. split; [reflexivity|].
    split; [now apply df_mask_shape|].
    split; [intros n c Hc; eexists; exact (column_df_mask n _ df c Hc)|].
    split; [now apply df_mask_shape|].
    rewrite (rows_df_mask _ df W). unfold isin.
    rewrite (column_by_rows _ df col W C) at 1. rewrite map_map.
    apply select_rows_self.
Qed.

Lemma filter_quartil_rows (name : pystr) (sel : list pystr) (df : DataFrame)
  (col : list value) :
  frame_ok df -> column name df = Some col ->
  exists df',
    filter_quartil name sel df = Some df' /\ frame_ok df' /\
    (forall n c, column n df = Some c -> exists c', column n df' = Some c') /\
    columns df' = columns df /\
    rows df' =
    filter (fun row => quartil_selected sel (series_get row name)) (rows df).
Proof.
  intros W C. unfold filter_quartil. rewrite C.
  destruct sel as [|s sel'].
  - exists df. split; [reflexivity|]. split; [exact W|]. split; [eauto|].
    split; [reflexivity|]. cbn [quartil_selected]. symmetry. apply forallb_filter_id.
    apply forallb_forall. reflexivity.
  - eexists. split; [reflexivity|].
    split; [now apply df_mask_shape|].
    split; [intros n c Hc; eexists; exact (column_df_mask n _ df c Hc)|].
    split; [now apply df_mask_shape|].
    rewrite (rows_df_mask _ df W). unfold isin, astype_str.
    rewrite (column_by_rows _ df col W C) at 1. rewrite !map_map.
    apply select_rows_self.
Qed.

Lemma filter_filter {A : Type} (f g : A -> bool) (l : list A) :
  filter g (filter f l) = filter (fun x => f x && g x) l.
Proof.
  induction l as [|x l IH]; simpl; [reflexivity|].
  destruct (f x); simpl; [destruct (g x); now rewrite IH | exact IH].
Qed.

(** A cell is a tier token when it equals one of [classes_order]. *)
Lemma py_eq_str_true (v : value) (s : pystr) :
  py_eq_str v s = true <-> v = VStr s.
Proof.
  destruct v; simpl; try (split; discriminate).
  rewrite pystr_eqb_eq. split; congruence.
Qed.

Lemma existsb_classes_order (v : value) :
  existsb (py_eq_str v) classes_order = true <-> is_tier_token v.
Proof.
  rewrite existsb_exists. unfold is_tier_token. split.
  - intros [t [Ht E]]. apply py_eq_str_true in E. now exists t.
  - intros [t [E Ht]]. exists t. split; [exact Ht | now apply py_eq_str_true].
Qed.

(** Among the cells of the column, the available classes select the
    tier tokens. *)
Lemma classes_avail_selects (col : list value) (v : value) :
  In v col ->
  existsb (py_eq_str v)
    (filter (fun c => existsb (fun w => py_eq_str w c) col) classes_order)
  = existsb (py_eq_str v) classes_order.
Proof.
  intros Hv. apply eq_true_iff_eq. rewrite !existsb_exists. split.
  - intros [t [Ht E]]. apply filter_In in Ht as [Ht _]. now exists t.
  - intros [t [Ht E]]. exists t. split; [|exact E].
    apply filter_In. split; [exact Ht|].
    apply existsb_exists. now exists v.
Qed.

(** X11: by default all available classes are selected. On a frame with
    one cell per row in every column, the class filter then leaves
    exactly the rows whose class is one of the five tokens, whole and
    in their order; when no row has such a class nothing is selectable
    and the filter is skipped, so every row stays. *)
Theorem default_classe_filter (df : DataFrame) (col : list value) :
  frame_ok df ->
  column CLASSIFICACAO df = Some col ->
  exists classe_sel df_filt,
    classes_avail df = Some classe_sel /\
    filter_classe classe_sel df = Some df_filt /\
    (classe_sel = [] <-> Forall (fun v => ~ is_tier_token v) col) /\
    columns df_filt = columns df /\
    frame_ok df_filt /\
    rows df_filt =
      match classe_sel with
      | [] => rows df
      | _ :: _ =>
          filter (fun row =>
                    existsb (py_eq_str (series_get row CLASSIFICACAO)) classes_order)
                 (rows df)
      end.
Proof.
  intros W C. unfold classes_avail. rewrite C.
  set (sel := filter (fun c => existsb (fun w => py_eq_str w c) col) classes_order).
  assert (E : sel = [] <-> Forall (fun v => ~ is_tier_token v) col).
  { split.
    - intros H. apply Forall_forall. intros v Hv T.
      apply existsb_classes_order in T.
      rewrite <- (classes_avail_selects col v Hv) in T. fold sel in T.
      rewrite H in T. discriminate.
    - intros H. rewrite Forall_forall in H.
      destruct sel as [|c sel'] eqn:S; [reflexivity|]. exfalso.
      assert (Hc : In c sel) by (rewrite S; now left).
      apply filter_In in Hc as [Hc K]. apply existsb_exists in K as [v [Hv K]].
      apply (H v Hv). apply py_eq_str_true in K. now exists c. }
  destruct (filter_classe_rows sel df col W C) as [d [F [Wd [_ [L R]]]]].
  exists sel, d. split; [reflexivity|]. split; [exact F|]. split; [exact E|].
  split; [exact L|]. split; [exact Wd|].
  rewrite R. destruct sel as [|c sel'] eqn:S.
  - cbn [classe_selected]. apply forallb_filter_id. apply forallb_forall. reflexivity.
  - apply filter_ext_in. intros row Hrow. cbn [classe_selected].
    rewrite <- S. apply classes_avail_selects.
    rewrite (column_by_rows CLASSIFICACAO df col W C).
    apply in_map_iff. now exists row.
Qed.

Lemma default_classe_filter_witness :
  (frame_ok frame_mixed /\
   column CLASSIFICACAO frame_mixed
     = Some [VStr (lit "MB"); VStr (lit "A1"); VNaN]) /\
  exists classe_sel df_filt,
    classes_avail frame_mixed = Some classe_sel /\
    filter_classe classe_sel frame_mixed = Some df_filt /\
    (classe_sel = [] <->
     Forall (fun v => ~ is_tier_token v) [VStr (lit "MB"); VStr (lit "A1"); VNaN]) /\
    columns df_filt = columns frame_mixed /\
    frame_ok df_filt /\
    rows df_filt =
      match classe_sel with
      | [] => rows frame_mixed
      | _ :: _ =>
          filter (fun row =>
                    existsb (py_eq_str (series_get row CLASSIFICACAO)) classes_order)
                 (rows frame_mixed)
      end.
Proof.
  assert (W : frame_ok frame_mixed) by (repeat constructor).
  split; [split; [exact W | reflexivity]|].
  exact (default_classe_filter frame_mixed _ W eq_refl).
Defined.

(** The default class selection on [frame_mixed] leaves its first row. *)
Example mixed_frame_default_classes :
  classes_avail frame_mixed = Some [lit "MB"] /\
  option_map rows (filter_classe [lit "MB"] frame_mixed) =
    Some [[(QUARTIL_JCR, VStr (lit "Q1")); (CLASSIFICACAO, VStr (lit "MB"))]].
Proof. split; reflexivity. Qed.

Lemma isin_all_tokens (sel : list pystr) (col : list value) :
  (forall v, In v col -> existsb (py_eq_str v) sel = true) ->
  forallb (fun b => b) (isin sel col) = true.
Proof.
  intros H. unfold isin. apply forallb_forall. intros b Hb.
  apply in_map_iff in Hb as [v [<- Hv]]. now apply H.
Qed.

(** X12: on a table that [load_data] classified itself, from a source
    with one cell per row in every column, the default class selection
    filters nothing out. *)
Theorem default_classe_filter_keeps_loaded (src df : DataFrame) :
  frame_ok src ->
  in_columns CLASSIFICACAO src = false ->
  load_data (Return src) = Return df ->
  exists classe_sel,
    classes_avail df = Some classe_sel /\
    filter_classe classe_sel df = Some df.
Proof.
  intros W H L.
  rewrite (load_data_absent src H) in L. injection L as <-.
  set (df := {| nrows := nrows src;
                cols := cols src ++ [(CLASSIFICACAO, backfill src)] |}).
  assert (C : column CLASSIFICACAO df = Some (backfill src)).
  { unfold column, df. cbn [cols].
    rewrite get_col_app, (get_col_absent _ _ H). cbn [get_col].
    now rewrite pystr_eqb_refl. }
  assert (Wd : frame_ok df).
  { unfold frame_ok, df. cbn [cols nrows]. apply Forall_app. split; [exact W|].
    constructor; [apply backfill_length | constructor]. }
  unfold classes_avail, filter_classe. rewrite C.
  eexists. split; [reflexivity|].
  destruct (filter _ classes_order) as [|c sel'] eqn:S; [reflexivity|].
  f_equal. apply df_mask_all; [exact Wd | |].
  - unfold isin. rewrite length_map. exact (backfill_length src).
  - apply isin_all_tokens. intros v Hv. rewrite <- S.
    rewrite (classes_avail_selects _ v Hv).
    apply existsb_classes_order.
    unfold backfill in Hv. apply in_map_iff in Hv as [i [<- _]].
    unfold tier_of.
    destruct (classify_journal_in_tokens
                (series_get (row_at src i) QUARTIL_JCR)
                (series_get (row_at src i) SJR_QUARTIL)) as [t [-> Ht]].
    now exists t.
Qed.

Lemma default_classe_filter_keeps_loaded_witness :
  frame_ok frame_quartiles /\
  in_columns CLASSIFICACAO frame_quartiles = false /\
  exists classe_sel,
    classes_avail
      {| nrows := 2;
         cols := cols frame_quartiles ++
                 [(CLASSIFICACAO, [VStr (lit "MB"); VStr SEM_CLASSIFICACAO_JCR_SJR])] |}
      = Some classe_sel /\
    filter_classe classe_sel
      {| nrows := 2;
         cols := cols frame_quartiles ++
                 [(CLASSIFICACAO, [VStr (lit "MB"); VStr SEM_CLASSIFICACAO_JCR_SJR])] |}
      = Some {| nrows := 2;
                cols := cols frame_quartiles ++
                        [(CLASSIFICACAO,
                          [VStr (lit "MB"); VStr SEM_CLASSIFICACAO_JCR_SJR])] |}.
Proof.
  assert (W : frame_ok frame_quartiles) by (repeat constructor).
  split; [exact W|]. split; [reflexivity|].
  exact (default_classe_filter_keeps_loaded frame_quartiles _ W eq_refl eq_refl).
Defined.

(** ** Options of the quartile filters *)

Lemma unique_from_In (seen l : list pystr) (x : pystr) :
  In x (unique_from seen l) <-> In x l /\ ~ In x seen.
Proof.
  revert seen. induction l as [|y l IH]; intros seen; simpl; [tauto|].
  destruct (existsb (pystr_eqb y) seen) eqn:E.
  - rewrite IH. apply existsb_pystr_In in E. split.
    + intros [H1 H2]. auto.
    + intros [[-> | H1] H2]; [contradiction | auto].
  - assert (N : ~ In y seen).
    { intros H. apply existsb_pystr_In in H. congruence. }
    simpl. rewrite IH. simpl. split.
    + intros [<- | [H1 H2]]; [auto|]. split; [now right | tauto].
    + intros [[-> | H1] H2]; [now left|].
      destruct (list_eq_dec N.eq_dec y x) as [-> | D]; [now left|].
      right. split; [exact H1|]. intros [K | K]; auto.
Qed.

Lemma unique_from_NoDup (seen l : list pystr) : NoDup (unique_from seen l).
Proof.
  revert seen. induction l as [|y l IH]; intros seen; simpl; [constructor|].
  destruct (existsb (pystr_eqb y) seen); [apply IH|].
  constructor; [|apply IH].
  intros H. apply unique_from_In in H as [_ H]. apply H. now left.
Qed.

Lemma pystr_ltb_irrefl (a : pystr) : pystr_ltb a a = false.
Proof.
  induction a as [|x a IH]; simpl; [reflexivity|].
  now rewrite N.ltb_irrefl, N.eqb_refl, IH.
Qed.

Lemma pystr_ltb_cons (x y : N) (a b : pystr) :
  pystr_ltb (x :: a) (y :: b) = true <->
  (x < y)%N \/ (x = y /\ pystr_ltb a b = true).
Proof.
  simpl. rewrite orb_true_iff, andb_true_iff, N.ltb_lt, N.eqb_eq. tauto.
Qed.

Lemma pystr_ltb_trans (a b c : pystr) :
  pystr_ltb a b = true -> pystr_ltb b c = true -> pystr_ltb a c = true.
Proof.
  revert b c. induction a as [|x a IH]; intros [|y b] [|z c]; try discriminate;
    try (simpl; reflexivity).
  rewrite !pystr_ltb_cons. intros [H1 | [-> H1]] [H2 | [-> H2]].
  - left. lia.
  - now left.
  - now left.
  - right. split; [reflexivity | now apply (IH b)].
Qed.

Lemma pystr_ltb_total (a b : pystr) :
  pystr_ltb a b = false -> a <> b -> pystr_ltb b a = true.
Proof.
  revert b. induction a as [|x a IH]; intros [|y b] H D;
    try discriminate; try reflexivity; [contradiction|].
  apply pystr_ltb_cons.
  destruct (N.lt_trichotomy x y) as [L | [E | L]].
  - exfalso. assert (K : pystr_ltb (x :: a) (y :: b) = true)
      by (apply pystr_ltb_cons; now left). congruence.
  - subst y. right. split; [reflexivity|]. apply IH.
    + destruct (pystr_ltb a b) eqn:K; [|reflexivity].
      assert (K' : pystr_ltb (x :: a) (x :: b) = true)
        by (apply pystr_ltb_cons; now right). congruence.
    + congruence.
  - now left.
Qed.

Lemma pystr_ltb_asym (a b : pystr) :
  pystr_ltb a b = true -> pystr_ltb b a = false.
Proof.
  intros H. destruct (pystr_ltb b a) eqn:K; [|reflexivity].
  pose proof (pystr_ltb_trans a b a H K) as T.
  now rewrite pystr_ltb_irrefl in T.
Qed.

Lemma insert_sorted_perm (x : pystr) (l : list pystr) :
  Permutation (insert_sorted x l) (x :: l).
Proof.
  induction l as [|y l IH]; simpl; [reflexivity|].
  destruct (pystr_ltb x y); [reflexivity|].
  rewrite IH. apply perm_swap.
Qed.

Lemma fold_insert_perm (l acc : list pystr) :
  Permutation (fold_left (fun acc x => insert_sorted x acc) l acc) (l ++ acc).
Proof.
  revert acc. induction l as [|x l IH]; intros acc; simpl; [reflexivity|].
  rewrite IH, insert_sorted_perm. symmetry. apply Permutation_middle.
Qed.

Lemma sorted_perm (l : list pystr) : Permutation (sorted l) l.
Proof. unfold sorted. rewrite fold_insert_perm. now rewrite app_nil_r. Qed.

Lemma insert_sorted_Sorted (x : pystr) (l : list pystr) :
  Sorted le_str l -> Sorted le_str (insert_sorted x l).
Proof.
  induction 1 as [|y l S IH Hd]; simpl; [repeat constructor|].
  destruct (pystr_ltb x y) eqn:E.
  - constructor; [now constructor|]. constructor. now apply pystr_ltb_asym.
  - constructor; [exact IH|].
    destruct l as [|z l]; simpl; [now constructor|].
    destruct (pystr_ltb x z); constructor; [exact E|].
    now inversion Hd.
Qed.

Lemma fold_insert_Sorted (l acc : list pystr) :
  Sorted le_str acc ->
  Sorted le_str (fold_left (fun acc x => insert_sorted x acc) l acc).
Proof.
  revert acc. induction l as [|x l IH]; intros acc S; simpl; [exact S|].
  apply IH. now apply insert_sorted_Sorted.
Qed.

Lemma Sorted_strict (l : list pystr) :
  Sorted le_str l -> NoDup l -> StronglySorted lt_str l.
Proof.
  intros S N. apply Sorted_StronglySorted.
  - intros a b c. apply pystr_ltb_trans.
  - induction S as [|a l S IH Hd]; [constructor|].
    inversion N as [|? ? Ha Nl]; subst.
    constructor; [now apply IH|].
    destruct Hd as [|b l Hab]; constructor.
    apply pystr_ltb_total; [exact Hab|].
    intros ->. apply Ha. now left.
Qed.

Lemma quartil_texts_In (col : list value) (t : pystr) :
  In t (sorted (unique (astype_str (dropna col)))) <->
  exists v, In v col /\ is_na v = false /\ str_of v = t.
Proof.
  set (u := unique (astype_str (dropna col))). split.
  - intros H. apply (Permutation_in _ (sorted_perm u)) in H.
    apply unique_from_In in H as [H _].
    apply in_map_iff in H as [v [E H]]. apply filter_In in H as [H K].
    exists v. repeat split; [exact H | now apply negb_true_iff | exact E].
  - intros [v [H [K E]]].
    apply (Permutation_in _ (Permutation_sym (sorted_perm u))).
    apply unique_from_In. split; [|intros []].
    apply in_map_iff. exists v. split; [exact E|].
    apply filter_In. split; [exact H | now rewrite K].
Qed.

(** X13: the options of a quartile filter are the texts of the cells of
    the column that are not missing, each once and in increasing order
    of [str]. *)
Theorem quartil_opts_sorted_distinct (name : pystr) (df : DataFrame)
  (col : list value) :
  column name df = Some col ->
  exists opts,
    quartil_opts name df = Some opts /\
    StronglySorted lt_str opts /\
    forall t, In t opts <-> exists v, In v col /\ is_na v = false /\ str_of v = t.
Proof.
  intros C. unfold quartil_opts. rewrite C. eexists. split; [reflexivity|].
  set (u := unique (astype_str (dropna col))).
  split.
  - apply Sorted_strict.
    + unfold sorted. apply fold_insert_Sorted. constructor.
    + apply (Permutation_NoDup (l := u)); [symmetry; apply sorted_perm|].
      apply unique_from_NoDup.
  - intros t. apply quartil_texts_In.
Qed.

Lemma quartil_opts_sorted_distinct_witness :
  exists opts,
    jcr_opts frame_mixed = Some opts /\
    StronglySorted lt_str opts /\
    forall t, In t opts <->
              exists v, In v [VStr (lit "Q1"); VNaN; VStr (lit "Q2")] /\
                        is_na v = false /\ str_of v = t.
Proof.
  apply (quartil_opts_sorted_distinct QUARTIL_JCR frame_mixed). reflexivity.
Defined.

(** X14: by default all options of a quartile filter are selected; they
    come from the whole table, and the filter runs on the rows that the
    filters before it left, a frame with one cell per row in every
    column. When no cell with a value reads ["nan"] or ["None"], that
    filter removes every row whose quartile is missing and leaves all
    the others whole and in order; when no row of the table has a
    quartile there is no option and the filter is skipped, so every row
    stays. *)
Theorem default_quartil_filter (name : pystr) (df df_filt : DataFrame)
  (col col_f : list value) :
  frame_ok df_filt ->
  column name df = Some col ->
  column name df_filt = Some col_f ->
  (forall v, In v col_f -> In v col) ->
  (forall v, In v col -> is_na v = false ->
             str_of v <> lit "nan" /\ str_of v <> lit "None") ->
  exists opts df_filt',
    quartil_opts name df = Some opts /\
    filter_quartil name opts df_filt = Some df_filt' /\
    (opts = [] <-> Forall (fun v => is_na v = true) col) /\
    columns df_filt' = columns df_filt /\
    frame_ok df_filt' /\
    rows df_filt' =
      match opts with
      | [] => rows df_filt
      | _ :: _ =>
          filter (fun row => negb (is_na (series_get row name))) (rows df_filt)
      end.
Proof.
  intros W C Cf Sub P.
  pose proof (quartil_texts_In col) as I.
  unfold quartil_opts. rewrite C.
  set (opts := sorted (unique (astype_str (dropna col)))) in *. clearbody opts.
  assert (E : opts = [] <-> Forall (fun v => is_na v = true) col).
  { split.
    - intros ->. apply Forall_forall. intros v Hv.
      destruct (is_na v) eqn:K; [reflexivity|]. exfalso.
      apply (proj2 (I (str_of v))). now exists v.
    - intros H. rewrite Forall_forall in H.
      destruct opts as [|t opts']; [reflexivity|]. exfalso.
      destruct (proj1 (I t) (or_introl eq_refl)) as [v [Hv [K _]]].
      rewrite (H v Hv) in K. discriminate. }
  destruct (filter_quartil_rows name opts df_filt col_f W Cf) as [d [F [Wd [_ [L R]]]]].
  exists opts, d. split; [reflexivity|]. split; [exact F|]. split; [exact E|].
  split; [exact L|]. split; [exact Wd|].
  rewrite R. destruct opts as [|t opts'] eqn:S.
  - cbn [quartil_selected]. apply forallb_filter_id. apply forallb_forall. reflexivity.
  - apply filter_ext_in. intros row Hrow. cbn [quartil_selected].
    set (v := series_get row name).
    assert (Hv : In v col_f).
    { rewrite (column_by_rows name df_filt col_f W Cf).
      apply in_map_iff. now exists row. }
    destruct (is_na v) eqn:K; cbn [negb].
    + destruct (existsb (pystr_eqb (str_of v)) (t :: opts')) eqn:X; [|reflexivity].
      exfalso. apply existsb_pystr_In in X. apply I in X as [w [Hw [Kw Ew]]].
      destruct (P w Hw Kw) as [P1 P2].
      destruct v; try discriminate; simpl in Ew; congruence.
    + apply existsb_pystr_In. apply I. exists v. auto.
Qed.

(** The options of [frame_mixed] on the rows that the class MB leaves. *)
Lemma default_quartil_filter_witness :
  (frame_ok (df_mask [true; true; false] frame_mixed) /\
   column QUARTIL_JCR frame_mixed = Some [VStr (lit "Q1"); VNaN; VStr (lit "Q2")] /\
   column QUARTIL_JCR (df_mask [true; true; false] frame_mixed)
     = Some [VStr (lit "Q1"); VNaN]) /\
  exists opts df_filt',
    jcr_opts frame_mixed = Some opts /\
    filter_quartil QUARTIL_JCR opts (df_mask [true; true; false] frame_mixed)
      = Some df_filt' /\
    (opts = [] <->
     Forall (fun v => is_na v = true) [VStr (lit "Q1"); VNaN; VStr (lit "Q2")]) /\
    columns df_filt' = columns (df_mask [true; true; false] frame_mixed) /\
    frame_ok df_filt' /\
    rows df_filt' =
      match opts with
      | [] => rows (df_mask [true; true; false] frame_mixed)
      | _ :: _ =>
          filter (fun row => negb (is_na (series_get row QUARTIL_JCR)))
                 (rows (df_mask [true; true; false] frame_mixed))
      end.
Proof.
  assert (W : frame_ok (df_mask [true; true; false] frame_mixed))
    by (repeat constructor).
  split; [split; [exact W | split; reflexivity]|].
  apply (default_quartil_filter QUARTIL_JCR frame_mixed
           (df_mask [true; true; false] frame_mixed)
           [VStr (lit "Q1"); VNaN; VStr (lit "Q2")] [VStr (lit "Q1"); VNaN] W);
    try reflexivity.
  - simpl. tauto.
  - simpl. intros v [<- | [<- | [<- | []]]] K; try discriminate K;
      split; discriminate.
Defined.

(** The default JCR selection on [frame_mixed] drops the row without
    quartile. *)
Example mixed_frame_default_jcr :
  jcr_opts frame_mixed = Some [lit "Q1"; lit "Q2"] /\
  option_map rows (filter_quartil QUARTIL_JCR [lit "Q1"; lit "Q2"] frame_mixed) =
    Some [[(QUARTIL_JCR, VStr (lit "Q1")); (CLASSIFICACAO, VStr (lit "MB"))];
          [(QUARTIL_JCR, VStr (lit "Q2")); (CLASSIFICACAO, VNaN)]].
Proof. split; reflexivity. Qed.

(** ** The chart of classes *)

Lemma list_sum_indicator (v : value) (l : list pystr) :
  NoDup l ->
  list_sum (map (fun c => if py_eq_str v c then 1 else 0) l) =
  if existsb (py_eq_str v) l then 1 else 0.
Proof.
  induction 1 as [|c l Hc N IH]; simpl; [reflexivity|].
  destruct (py_eq_str v c) eqn:E; simpl; [|exact IH].
  rewrite IH. apply py_eq_str_true in E. subst v.
  destruct (existsb (py_eq_str (VStr c)) l) eqn:X; [|reflexivity].
  exfalso. apply Hc. apply existsb_exists in X as [t [Ht K]].
  apply py_eq_str_true in K. now injection K as ->.
Qed.

Lemma list_sum_counts (col : list value) (l : list pystr) :
  NoDup l ->
  list_sum (map (fun c => List.length (filter (fun v => py_eq_str v c) col)) l) =
  List.length (filter (fun v => existsb (py_eq_str v) l) col).
Proof.
  intros N. induction col as [|v col IH]; simpl.
  - induction l as [|c l IHl]; simpl; [reflexivity|].
    inversion N; subst. now apply IHl.
  - assert (S : list_sum (map (fun c => List.length
                   (if py_eq_str v c then v :: filter (fun w => py_eq_str w c) col
                    else filter (fun w => py_eq_str w c) col)) l) =
                list_sum (map (fun c => if py_eq_str v c then 1 else 0) l) +
                list_sum (map (fun c => List.length
                                  (filter (fun w => py_eq_str w c) col)) l)).
    { clear. induction l as [|c l IHl]; simpl; [reflexivity|].
      rewrite IHl. destruct (py_eq_str v c); simpl; lia. }
    rewrite S, IH, (list_sum_indicator v l N).
    destruct (existsb (py_eq_str v) l); reflexivity.
Qed.

Lemma classes_order_NoDup : NoDup classes_order.
Proof.
  cbv. repeat (constructor; [simpl; intuition discriminate|]). constructor.
Qed.

(** X15: the chart has one bar for each of the five classes, in their
    order; the bars add up to the number of rows whose class is one of
    the five tokens, hence to the number of rows when every class is. *)
Theorem class_counts_sum (df_filt : DataFrame) (col : list value) :
  column CLASSIFICACAO df_filt = Some col ->
  exists counts,
    class_counts df_filt = Some counts /\
    map fst counts = classes_order /\
    list_sum (map snd counts) =
      List.length (filter (fun v => existsb (py_eq_str v) classes_order) col) /\
    (Forall is_tier_token col -> list_sum (map snd counts) = List.length col).
Proof.
  intros C. unfold class_counts. rewrite C. eexists. split; [reflexivity|].
  rewrite !map_map. cbn [fst snd].
  split; [apply map_id|].
  rewrite (list_sum_counts col classes_order classes_order_NoDup).
  split; [reflexivity|].
  intros T. f_equal. apply forallb_filter_id. apply forallb_forall.
  intros v Hv. apply existsb_classes_order.
  rewrite Forall_forall in T. now apply T.
Qed.

Lemma class_counts_sum_witness :
  exists counts,
    class_counts frame_mixed = Some counts /\
    map fst counts = classes_order /\
    list_sum (map snd counts) =
      List.length (filter (fun v => existsb (py_eq_str v) classes_order)
                     [VStr (lit "MB"); VStr (lit "A1"); VNaN]) /\
    (Forall is_tier_token [VStr (lit "MB"); VStr (lit "A1"); VNaN] ->
     list_sum (map snd counts) = List.length [VStr (lit "MB"); VStr (lit "A1"); VNaN]).
Proof.
  apply (class_counts_sum frame_mixed). reflexivity.
Defined.

(** ** The filters together *)

(** X16: on a frame that has the three columns, with one cell per row
    in every column, the three filters raise nothing and leave, in
    their order, exactly the rows whose class is selected and whose
    JCR and SJR texts are selected, an empty selection letting every
    row through. *)
Theorem apply_filters_rows (classe_sel jcr_sel sjr_sel : list pystr) (df : DataFrame) :
  frame_ok df ->
  in_columns CLASSIFICACAO df = true ->
  in_columns QUARTIL_JCR df = true ->
  in_columns SJR_QUARTIL df = true ->
  exists df_filt,
    apply_filters classe_sel jcr_sel sjr_sel df = Some df_filt /\
    columns df_filt = columns df /\
    rows df_filt =
    filter (fun row =>
              classe_selected classe_sel (series_get row CLASSIFICACAO) &&
              quartil_selected jcr_sel (series_get row QUARTIL_JCR) &&
              quartil_selected sjr_sel (series_get row SJR_QUARTIL))
           (rows df).
Proof.
  intros W H1 H2 H3.
  assert (P : forall n, in_columns n df = true -> exists c, column n df = Some c).
  { intros n Hn. unfold column. destruct (get_col n (cols df)) as [c|] eqn:C;
      [now exists c|]. apply get_col_None in C. unfold in_columns, columns in Hn.
    congruence. }
  destruct (P _ H1) as [c1 C1]. destruct (P _ H2) as [c2 C2].
  destruct (P _ H3) as [c3 C3].
  unfold apply_filters. cbv zeta.
  destruct (filter_classe_rows classe_sel df c1 W C1) as [d1 [E1 [W1 [K1 [L1 R1]]]]].
  rewrite E1.
  destruct (K1 _ _ C2) as [c2' C2'].
  destruct (filter_quartil_rows QUARTIL_JCR jcr_sel d1 c2' W1 C2')
    as [d2 [E2 [W2 [K2 [L2 R2]]]]].
  rewrite E2.
  destruct (K1 _ _ C3) as [c3' C3']. destruct (K2 _ _ C3') as [c3'' C3''].
  destruct (filter_quartil_rows SJR_QUARTIL sjr_sel d2 c3'' W2 C3'')
    as [d3 [E3 [W3 [K3 [L3 R3]]]]].
  exists d3. split; [exact E3|]. split.
  - congruence.
  - rewrite R3, R2, R1, !filter_filter. apply filter_ext.
    intros row. now rewrite andb_assoc.
Qed.

Lemma apply_filters_rows_witness :
  (frame_ok frame_stale /\
   in_columns CLASSIFICACAO frame_stale = true /\
   in_columns QUARTIL_JCR frame_stale = true /\
   in_columns SJR_QUARTIL frame_stale = true) /\
  exists df_filt,
    apply_filters [lit "F"; lit "MB"] [] [lit "Q1"] frame_stale = Some df_filt /\
    columns df_filt = columns frame_stale /\
    rows df_filt =
    filter (fun row =>
              classe_selected [lit "F"; lit "MB"] (series_get row CLASSIFICACAO) &&
              quartil_selected [] (series_get row QUARTIL_JCR) &&
              quartil_selected [lit "Q1"] (series_get row SJR_QUARTIL))
           (rows frame_stale).
Proof.
  assert (W : frame_ok frame_stale) by (repeat constructor).
  split; [repeat split; exact W|].
  exact (apply_filters_rows [lit "F"; lit "MB"] [] [lit "Q1"] frame_stale
           W eq_refl eq_refl eq_refl).
Defined.
